(** * speak-backend: the promotional-code handlers

    A shallow embedding of [handlers/balance.go], [handlers/auth_utils.go]
    and the promocode handlers ([AddPromocode], [ActivatePromocode] and the
    helpers they call), followed by the properties of the redemption
    subsystem.

    Conventions.
    - A Go [string] / [[]byte] is a [string] (a list of bytes).
    - A Go [float64] is a primitive binary64 [float]; [int64] values are [Z].
    - A [time.Time] is the instant it denotes, in nanoseconds, as a [Z]
      ([UTC()] changes the location only, never the instant).
    - A Go [error] value is an element of [error]; a function returning
      [(T, error)] returns a [result T].
    - Handlers run in the state monad [M] over a [World]: the relational
      store, the open transaction, the clock and the entropy source. *)

From Stdlib Require Import Floats ZArith String Ascii List.
From stdpp Require Import base option list gmap strings pretty.

Local Open Scope string_scope.
Local Open Scope Z_scope.

(** ** Go values *)

Module Go.

(** [error]: the error values the handlers create, receive and inspect. *)
Inductive error : Type :=
  | ErrNoRows                                (* sql.ErrNoRows *)
  | ErrTxDone                                (* sql.ErrTxDone *)
  | PqError (code : string) (msg : string)   (* a pq.Error, with its SQLSTATE *)
  | ErrMissingToken                          (* errMissingToken *)
  | ErrSignatureInvalid                      (* jwt.ErrSignatureInvalid *)
  | ErrTokenExpired                          (* jwt.ErrTokenExpired *)
  | Errorf (msg : string)                    (* errors.New / fmt.Errorf without %w *)
  | Wrap (prefix : string) (inner : error).  (* fmt.Errorf("prefix: %w", inner) *)

(** [err.Error()] *)
Fixpoint Error (e : error) : string :=
  match e with
  | ErrNoRows => "sql: no rows in result set"
  | ErrTxDone => "sql: transaction has already been committed or rolled back"
  | PqError _ msg => "pq: " +:+ msg
  | ErrMissingToken => "authorization token is required"
  | ErrSignatureInvalid => "signature is invalid"
  | ErrTokenExpired => "token is expired"
  | Errorf msg => msg
  | Wrap prefix inner => prefix +:+ ": " +:+ Error inner
  end.

(** The sentinel an error value carries at the end of its [Unwrap] chain. *)
Inductive sentinel : Type := SNoRows | STxDone | SMissingToken | SSignatureInvalid | STokenExpired.

(** [errors.Is(err, target)] for a sentinel target: follows the wrap chain. *)
Fixpoint errors_Is (e : error) (target : sentinel) : bool :=
  match e, target with
  | ErrNoRows, SNoRows => true
  | ErrTxDone, STxDone => true
  | ErrMissingToken, SMissingToken => true
  | ErrSignatureInvalid, SSignatureInvalid => true
  | ErrTokenExpired, STokenExpired => true
  | Wrap _ inner, _ => errors_Is inner target
  | _, _ => false
  end.

(** The type assertion of [err] to a [pq.Error] pointer (it does not unwrap):
    the SQLSTATE code when it succeeds. *)
Definition as_pq (e : error) : option string :=
  match e with
  | PqError code _ => Some code
  | _ => None
  end.

(** A Go [(T, error)] pair in which exactly one side is meaningful. *)
Inductive result (A : Type) : Type :=
  | Ok (a : A)
  | Err (e : error).
Global Arguments Ok {A} a.
Global Arguments Err {A} e.

(** *** strings *)

(** The ASCII white space [strings.TrimSpace] strips (its fast path; the
    multi-byte Unicode spaces are not treated). *)
Definition isSpace (c : ascii) : bool :=
  match nat_of_ascii c with
  | 9%nat | 10%nat | 11%nat | 12%nat | 13%nat | 32%nat => true
  | _ => false
  end.

Fixpoint trimLeft (s : string) : string :=
  match s with
  | EmptyString => EmptyString
  | String c s' => if isSpace c then trimLeft s' else s
  end.

Definition TrimSpace (s : string) : string :=
  String.rev (trimLeft (String.rev (trimLeft s))).

Definition toLower (c : ascii) : ascii :=
  let n := nat_of_ascii c in
  if ((65 <=? n) && (n <=? 90))%nat then ascii_of_nat (n + 32) else c.

(** [strings.EqualFold] on ASCII letters (the only letters of the literals
    it is called with here: none, null, Bearer). *)
Fixpoint EqualFold (s t : string) : bool :=
  match s, t with
  | EmptyString, EmptyString => true
  | String a s', String b t' => Ascii.eqb (toLower a) (toLower b) && EqualFold s' t'
  | _, _ => false
  end.

(** *** float64 and int64 *)

(** [float64(z)]: the binary64 value nearest to [z] (ties to even). *)
Definition float_of_Z (z : Z) : float :=
  SF2Prim (binary_normalize prec emax z 0 false).

(** [math.Round]: nearest integer, halves away from zero; zeros, infinities
    and NaN are returned unchanged. *)
Definition math_Round (x : float) : float :=
  match Prim2SF x with
  | S754_finite s m e =>
      if 0 <=? e then x
      else
        let d := 2 ^ (- e) in
        let q := Z.pos m / d in
        let r := Z.pos m mod d in
        let n := if d <=? 2 * r then q + 1 else q in
        SF2Prim (binary_normalize prec emax (if s then - n else n) 0 s)
  | _ => x
  end.

Definition math_Abs (x : float) : float := PrimFloat.abs x.
Definition math_IsNaN (x : float) : bool := negb (PrimFloat.eqb x x).
(** [math.IsInf(x, 0)] *)
Definition math_IsInf (x : float) : bool :=
  PrimFloat.ltb PrimFloat.infinity x || PrimFloat.eqb x PrimFloat.infinity
  || PrimFloat.eqb x PrimFloat.neg_infinity.

Definition minInt64 : Z := - 2 ^ 63.
Definition maxInt64 : Z := 2 ^ 63 - 1.

(** [int64(x)]: truncation toward zero. Outside the range of [int64] (and for
    NaN) the language leaves the result to the implementation; amd64 yields
    the most negative value, which is what is modelled. *)
Definition int64_of_float (x : float) : Z :=
  match Prim2SF x with
  | S754_zero _ => 0
  | S754_finite s m e =>
      let a := if 0 <=? e then Z.pos m * 2 ^ e else Z.pos m / 2 ^ (- e) in
      let v := if s then - a else a in
      if (minInt64 <=? v) && (v <=? maxInt64) then v else minInt64
  | _ => minInt64
  end.

(** The constant [1e-9] as the compiler rounds it to binary64. *)
Definition epsilon : float := 0x1.12e0be826d695p-30%float.

(** *** time *)

Definition Time : Type := Z.
Definition Duration : Type := Z.
Definition Hour : Duration := 3600 * 1000000000.

Definition Before (t u : Time) : bool := t <? u.
Definition After (t u : Time) : bool := u <? t.
Definition Add (t : Time) (d : Duration) : Time := t + d.

End Go.
Import Go.

(** The functions of Go's standard library whose results the handlers only
    pass on: they are taken as an interface. *)
Class GoLib : Type := {
  (** [strconv.ParseFloat(s, 64)]; a range error comes with an error value *)
  strconv_ParseFloat : string -> result float;
  (** [strconv.Unquote] *)
  strconv_Unquote : string -> result string;
  (** [time.Parse(layout, value)] *)
  time_Parse : string -> string -> result Time;
  (** [t.Format(time.RFC3339)] *)
  format_RFC3339 : Time -> string;
}.

(** ** fiber: JSON responses and the request context *)

Module Fiber.

(** The values the handlers put into a [fiber.Map]. *)
Inductive jval : Type :=
  | JStr (s : string)
  | JFloat (x : float)
  | JInt (n : Z)
  | JBool (b : bool).

(** What a handler sends: the HTTP status and the [fiber.Map] serialised as
    the JSON body. *)
Record Response : Type := mkResponse {
  status : Z;
  body : gmap string jval;
}.

Definition StatusOK : Z := 200.
Definition StatusBadRequest : Z := 400.
Definition StatusUnauthorized : Z := 401.
Definition StatusForbidden : Z := 403.
Definition StatusNotFound : Z := 404.
Definition StatusConflict : Z := 409.
Definition StatusInternalServerError : Z := 500.

(** [c.JSON(m)] *)
Definition JSON (m : gmap string jval) : Response := mkResponse StatusOK m.
(** [c.Status(s).JSON(m)] *)
Definition StatusJSON (s : Z) (m : gmap string jval) : Response := mkResponse s m.

(** The token's claims ([Claims.UserID]). *)
Record Claims : Type := mkClaims { UserID : Z }.

(** A request as a handler sees it. Extracting and parsing the bearer token
    ([getClaimsFromContext]) and decoding the body are done by the token
    service and by the JSON decoder: the context carries their outcomes. *)
Record Ctx (Req : Type) : Type := mkCtx {
  ctx_claims : result Claims;
  ctx_body : result Req;
}.
Global Arguments mkCtx {Req} _ _.
Global Arguments ctx_claims {Req} _.
Global Arguments ctx_body {Req} _.

End Fiber.
Import Fiber.

(** ** The relational store

    The store is the external collaborator of the handlers; it is modelled
    by the tables the statements of the handlers touch, in both layouts (the
    current one and the legacy one), each with the SQLSTATE it answers when
    a table or a column is missing (42P01, 42703) or a uniqueness
    constraint is violated (23505). A table that is [None] does not exist. *)

Module Store.

(** A driver value, as [Scan] hands it to an [interface{}] destination. *)
Inductive sqlval : Type :=
  | VNull
  | VFloat64 (x : float)
  | VInt64 (n : Z)
  | VInt32 (n : Z)
  | VUint64 (n : Z)
  | VBytes (s : string)
  | VString (s : string)
  | VBool (b : bool).

(** A row of [promocode] (current layout). *)
Record promocodeRow : Type := mkPromocodeRow {
  pr_id : Z;
  pr_name : string;
  pr_keyword : string;
  pr_start_time : option Time;
  pr_end_time : option Time;
  pr_quantity : sqlval;
}.

(** A row of [promocodes] (legacy layout); [lp_quantity] is the [float64]
    that [Scan] yields for the stored quantity. *)
Record legacyPromocode : Type := mkLegacyPromocode {
  lp_id : Z;
  lp_keyword : string;
  lp_quantity : float;
  lp_is_active : bool;
}.

(** The column names of the legacy table, which vary between deployments. *)
Record legacyLayout : Type := mkLegacyLayout {
  has_promocode_id : bool;   (* the key column is promocode_id (else: id) *)
  has_is_active : bool;      (* the flag column is is_active (else: active) *)
  has_created_at : bool;
}.

(** A row of [promocode_activation] (current layout). *)
Record activationRow : Type := mkActivationRow {
  ar_promocode_id : Z;
  ar_user_id : Z;
  ar_enable_time : Time;
  ar_quantity : Z;
}.

(** A row of [promocode_activations] (legacy layout). *)
Record legacyActivationRow : Type := mkLegacyActivationRow {
  la_promocode_id : Z;
  la_user_id : Z;
  la_activated_at : Time;
}.

Record Tables : Type := mkTables {
  promocode : option (list promocodeRow);
  promocodes : option (legacyLayout * list legacyPromocode);
  promocode_activation : option (list activationRow);
  promocode_activations : option (list legacyActivationRow);
  (** [balance]: user_id to quantity, user_id unique *)
  balance : gmap Z float;
  (** the store's answer to the i-th admin query of [isUserAdmin] *)
  admin_answers : nat -> Z -> result bool;
}.

Definition set_promocode (v : option (list promocodeRow)) (t : Tables) : Tables :=
  mkTables v (promocodes t) (promocode_activation t) (promocode_activations t)
           (balance t) (admin_answers t).
Definition set_promocodes (v : option (legacyLayout * list legacyPromocode)) (t : Tables) : Tables :=
  mkTables (promocode t) v (promocode_activation t) (promocode_activations t)
           (balance t) (admin_answers t).
Definition set_promocode_activation (v : option (list activationRow)) (t : Tables) : Tables :=
  mkTables (promocode t) (promocodes t) v (promocode_activations t)
           (balance t) (admin_answers t).
Definition set_promocode_activations (v : option (list legacyActivationRow)) (t : Tables) : Tables :=
  mkTables (promocode t) (promocodes t) (promocode_activation t) v
           (balance t) (admin_answers t).
Definition set_balance (v : gmap Z float) (t : Tables) : Tables :=
  mkTables (promocode t) (promocodes t) (promocode_activation t) (promocode_activations t)
           v (admin_answers t).

Definition undefined_table (name : string) : error :=
  PqError "42P01" ("relation " +:+ name +:+ " does not exist").
Definition undefined_column (name : string) : error :=
  PqError "42703" ("column " +:+ name +:+ " does not exist").
Definition unique_violation (name : string) : error :=
  PqError "23505" ("duplicate key value violates unique constraint " +:+ name).

(** A statement: its answer and the tables after it. A statement that
    answers an error leaves the tables as they were. *)
Definition stmt (A : Type) : Type := Tables -> result A * Tables.

(** The next value of a serial key. *)
Definition next_id (ids : list Z) : Z := 1 + foldr Z.max 0 ids.

(** SELECT id, name, quantity, start_time, end_time FROM promocode WHERE keyword = $1 *)
Definition select_promocode (keyword : string) : stmt promocodeRow := fun t =>
  match promocode t with
  | None => (Err (undefined_table "promocode"), t)
  | Some rows =>
      match List.find (fun r => String.eqb (pr_keyword r) keyword) rows with
      | Some r => (Ok r, t)
      | None => (Err ErrNoRows, t)
      end
  end.

(** SELECT promocode_id, quantity, is_active FROM promocodes WHERE keyword = $1
    and, with [alt], SELECT id, quantity, active FROM promocodes WHERE keyword = $1 *)
Definition select_promocodes (alt : bool) (keyword : string) : stmt legacyPromocode := fun t =>
  match promocodes t with
  | None => (Err (undefined_table "promocodes"), t)
  | Some (layout, rows) =>
      if negb (Bool.eqb (has_promocode_id layout) (negb alt)) then
        (Err (undefined_column (if alt then "id" else "promocode_id")), t)
      else if negb (Bool.eqb (has_is_active layout) (negb alt)) then
        (Err (undefined_column (if alt then "active" else "is_active")), t)
      else
        match List.find (fun r => String.eqb (lp_keyword r) keyword) rows with
        | Some r => (Ok r, t)
        | None => (Err ErrNoRows, t)
        end
  end.

(** SELECT 1 FROM promocode_activation WHERE promocode_id = $1 AND user_id = $2 *)
Definition select_activation (promocode_id user_id : Z) : stmt Z := fun t =>
  match promocode_activation t with
  | None => (Err (undefined_table "promocode_activation"), t)
  | Some rows =>
      if existsb (fun r => (ar_promocode_id r =? promocode_id) && (ar_user_id r =? user_id)) rows
      then (Ok 1, t) else (Err ErrNoRows, t)
  end.

(** SELECT 1 FROM promocode_activations WHERE promocode_id = $1 AND user_id = $2 *)
Definition select_activations (promocode_id user_id : Z) : stmt Z := fun t =>
  match promocode_activations t with
  | None => (Err (undefined_table "promocode_activations"), t)
  | Some rows =>
      if existsb (fun r => (la_promocode_id r =? promocode_id) && (la_user_id r =? user_id)) rows
      then (Ok 1, t) else (Err ErrNoRows, t)
  end.

(** INSERT INTO promocode_activation (promocode_id, user_id, enable_time, quantity)
    VALUES ($1, $2, $3, $4); (promocode_id, user_id) is unique *)
Definition insert_activation (promocode_id user_id : Z) (now : Time) (quantity : Z) : stmt unit := fun t =>
  match promocode_activation t with
  | None => (Err (undefined_table "promocode_activation"), t)
  | Some rows =>
      if existsb (fun r => (ar_promocode_id r =? promocode_id) && (ar_user_id r =? user_id)) rows
      then (Err (unique_violation "promocode_activation"), t)
      else (Ok tt, set_promocode_activation
                     (Some (rows ++ [mkActivationRow promocode_id user_id now quantity])%list) t)
  end.

(** INSERT INTO promocode_activations (promocode_id, user_id, activated_at)
    VALUES ($1, $2, $3); (promocode_id, user_id) is unique *)
Definition insert_activations (promocode_id user_id : Z) (now : Time) : stmt unit := fun t =>
  match promocode_activations t with
  | None => (Err (undefined_table "promocode_activations"), t)
  | Some rows =>
      if existsb (fun r => (la_promocode_id r =? promocode_id) && (la_user_id r =? user_id)) rows
      then (Err (unique_violation "promocode_activations"), t)
      else (Ok tt, set_promocode_activations
                     (Some (rows ++ [mkLegacyActivationRow promocode_id user_id now])%list) t)
  end.

(** INSERT INTO balance (user_id, quantity) VALUES ($1, 0) ON CONFLICT (user_id) DO NOTHING *)
Definition insert_balance (user_id : Z) : stmt unit := fun t =>
  match balance t !! user_id with
  | Some _ => (Ok tt, t)
  | None => (Ok tt, set_balance (<[user_id := 0%float]> (balance t)) t)
  end.

(** UPDATE balance SET quantity = quantity + $1 WHERE user_id = $2 *)
Definition update_balance (amount : float) (user_id : Z) : stmt unit := fun t =>
  (Ok tt, set_balance (alter (fun q => PrimFloat.add q amount) user_id (balance t)) t).

(** SELECT quantity FROM balance WHERE user_id = $1 *)
Definition select_balance (user_id : Z) : stmt float := fun t =>
  match balance t !! user_id with
  | Some q => (Ok q, t)
  | None => (Err ErrNoRows, t)
  end.

(** INSERT INTO promocode (name, keyword, start_time, end_time, quantity, created_at)
    VALUES ($1, $2, $3, $4, $5, NOW()); keyword is unique, id is serial *)
Definition insert_promocode (name keyword : string) (start_time end_time : Time) (quantity : Z)
  : stmt unit := fun t =>
  match promocode t with
  | None => (Err (undefined_table "promocode"), t)
  | Some rows =>
      if existsb (fun r => String.eqb (pr_keyword r) keyword) rows
      then (Err (unique_violation "promocode_keyword_key"), t)
      else (Ok tt, set_promocode
                     (Some (rows ++ [mkPromocodeRow (next_id (map pr_id rows)) name keyword
                                        (Some start_time) (Some end_time) (VInt64 quantity)])%list) t)
  end.

(** INSERT INTO promocodes (keyword, quantity, is_active, created_at) VALUES ($1, $2, $3, NOW())
    and, without [created_at],
    INSERT INTO promocodes (keyword, quantity, is_active) VALUES ($1, $2, $3);
    keyword is unique, the key is serial *)
Definition insert_promocodes (created_at : bool) (keyword : string) (quantity : Z) (is_active : bool)
  : stmt unit := fun t =>
  match promocodes t with
  | None => (Err (undefined_table "promocodes"), t)
  | Some (layout, rows) =>
      if negb (has_is_active layout) then (Err (undefined_column "is_active"), t)
      else if created_at && negb (has_created_at layout) then (Err (undefined_column "created_at"), t)
      else if existsb (fun r => String.eqb (lp_keyword r) keyword) rows
      then (Err (unique_violation "promocodes_keyword_key"), t)
      else (Ok tt, set_promocodes
                     (Some (layout, (rows ++ [mkLegacyPromocode (next_id (map lp_id rows)) keyword
                                                 (float_of_Z quantity) is_active])%list)) t)
  end.

(** The four queries [isUserAdmin] tries, by position; what each answers is
    the store's ([users], [admins] and [user_roles] are not owned by this
    subsystem). *)
Definition select_admin (i : nat) (user_id : Z) : stmt bool := fun t =>
  (admin_answers t i user_id, t).

End Store.
Import Store.

(** ** The world of a handler: connection pool, transaction, clock, entropy *)

Module Runtime.

(** What happened to transactions, in order. *)
Inductive TxEvent : Type :=
  | EvBegin
  | EvCommit
  | EvCommitFailed
  | EvRollback          (* a rollback that discarded an open transaction *)
  | EvRollbackNoop.     (* a rollback after the transaction had ended (ErrTxDone) *)

Record World : Type := mkWorld {
  (** what every connection of the pool sees *)
  committed : Tables;
  (** the view of the open transaction, when there is one *)
  pending : option Tables;
  (** failures the environment imposes on the next round trips to the
      store (lost connections, statements that lose a race against another
      session): [Some e] makes the round trip answer [e] and change nothing *)
  faults : list (option error);
  txlog : list TxEvent;
  (** the readings of the clock, by reading number, and the readings taken *)
  clock : nat -> Time;
  ticks : nat;
  (** the bytes the entropy source still holds *)
  entropy : list ascii;
}.

Definition set_committed (v : Tables) (w : World) : World :=
  mkWorld v (pending w) (faults w) (txlog w) (clock w) (ticks w) (entropy w).
Definition set_pending (v : option Tables) (w : World) : World :=
  mkWorld (committed w) v (faults w) (txlog w) (clock w) (ticks w) (entropy w).
Definition set_faults (v : list (option error)) (w : World) : World :=
  mkWorld (committed w) (pending w) v (txlog w) (clock w) (ticks w) (entropy w).
Definition log_event (ev : TxEvent) (w : World) : World :=
  mkWorld (committed w) (pending w) (faults w) (txlog w ++ [ev])%list (clock w) (ticks w) (entropy w).
Definition set_ticks (v : nat) (w : World) : World :=
  mkWorld (committed w) (pending w) (faults w) (txlog w) (clock w) v (entropy w).
Definition set_entropy (v : list ascii) (w : World) : World :=
  mkWorld (committed w) (pending w) (faults w) (txlog w) (clock w) (ticks w) v.

(** The state monad of the handlers. *)
Definition M (A : Type) : Type := World -> A * World.

#[global] Instance M_ret : MRet M := fun A a w => (a, w).
#[global] Instance M_bind : MBind M := fun A B f m w => let '(a, w') := m w in f a w'.

(** The failure imposed on the next round trip, if any. *)
Definition next_fault : M (option error) := fun w =>
  match faults w with
  | [] => (None, w)
  | f :: fs => (f, set_faults fs w)
  end.

(** The handle of the open transaction (a non-nil [*sql.Tx]). *)
Inductive Tx : Type := TheTx.

(** [db.DB.Begin()] *)
Definition Begin : M (result Tx) :=
  f ← next_fault;
  match f with
  | Some e => mret (Err e)
  | None => fun w => (Ok TheTx, log_event EvBegin (set_pending (Some (committed w)) w))
  end.

(** [tx.Commit()]: publishes the view of the transaction; a commit that
    fails ends the transaction without publishing anything. *)
Definition Commit (tx : Tx) : M (option error) := fun w =>
  match pending w with
  | None => (Some ErrTxDone, w)
  | Some t =>
      let '(f, w) := next_fault w in
      match f with
      | Some e => (Some e, log_event EvCommitFailed (set_pending None w))
      | None => (None, log_event EvCommit (set_committed t (set_pending None w)))
      end
  end.

(** [tx.Rollback()]: discards the view of the transaction; once the
    transaction has ended it changes nothing and answers [ErrTxDone]. *)
Definition Rollback (tx : Tx) : M (option error) := fun w =>
  match pending w with
  | None => (Some ErrTxDone, log_event EvRollbackNoop w)
  | Some _ => (None, log_event EvRollback (set_pending None w))
  end.

(** [defer cleanup]: [cleanup] runs when the rest of the function has
    produced its result; its own result is dropped. *)
Definition defer {A B : Type} (cleanup : M B) (rest : M A) : M A :=
  a ← rest; _ ← cleanup; mret a.

(** [db.DB.QueryRow(q, ...).Scan(...)]: on a connection of its own, so it
    sees the committed tables. *)
Definition DB_QueryRow {A : Type} (q : stmt A) : M (result A) :=
  f ← next_fault;
  match f with
  | Some e => mret (Err e)
  | None => fun w => let '(r, t) := q (committed w) in (r, set_committed t w)
  end.

(** [db.DB.Exec(q, ...)], its [sql.Result] dropped *)
Definition DB_Exec (q : stmt unit) : M (option error) :=
  r ← DB_QueryRow q;
  mret (match r with Ok _ => None | Err e => Some e end).

(** [tx.QueryRow(q, ...).Scan(...)]: inside the transaction *)
Definition Tx_QueryRow {A : Type} (tx : Tx) (q : stmt A) : M (result A) :=
  f ← next_fault;
  match f with
  | Some e => mret (Err e)
  | None => fun w =>
      match pending w with
      | None => (Err ErrTxDone, w)
      | Some t => let '(r, t') := q t in (r, set_pending (Some t') w)
      end
  end.

(** [tx.Exec(q, ...)], its [sql.Result] dropped *)
Definition Tx_Exec (tx : Tx) (q : stmt unit) : M (option error) :=
  r ← Tx_QueryRow tx q;
  mret (match r with Ok _ => None | Err e => Some e end).

(** [time.Now().UTC()] *)
Definition time_Now : M Time := fun w =>
  (clock w (ticks w), set_ticks (S (ticks w)) w).

(** [rand.Read(b)] of crypto/rand for a buffer of [n] bytes: it fills the
    whole buffer or fails. *)
Definition rand_Read (n : nat) : M (result (list ascii)) := fun w =>
  if (n <=? length (entropy w))%nat
  then (Ok (take n (entropy w)), set_entropy (drop n (entropy w)) w)
  else (Err (Errorf "entropy source unavailable"), w).

End Runtime.
Import Runtime.

(** ** The handlers *)

Section Handlers.
Context `{GoLib}.

(** "error": message *)
Definition errorBody (message : string) : gmap string jval :=
  {[ "error" := JStr message ]}.
(** "error": message, "details": err.Error() *)
Definition errorDetails (message : string) (err : error) : gmap string jval :=
  <["details" := JStr (Error err)]> {[ "error" := JStr message ]}.

(** *** auth_utils.go *)

Definition getClaimsFromContext {Req : Type} (c : Ctx Req) : result Claims :=
  ctx_claims c.

Definition adminQueries : list nat := [0; 1; 2; 3]%nat.

Fixpoint isUserAdmin_from (queries : list nat) (userID : Z) : M (result bool) :=
  match queries with
  | [] => mret (Err (Errorf ("could not determine admin status for user " +:+ pretty userID)))
  | query :: rest =>
      r ← DB_QueryRow (select_admin query userID);
      match r with
      | Ok isAdmin => mret (Ok isAdmin)
      | Err err =>
          if errors_Is err SNoRows then mret (Ok false)
          else
            match as_pq err with
            | Some code =>
                if String.eqb code "42703" || String.eqb code "42P01"
                then isUserAdmin_from rest userID
                else mret (Err err)
            | None => mret (Err err)
            end
      end
  end.

Definition isUserAdmin (userID : Z) : M (result bool) :=
  isUserAdmin_from adminQueries userID.

Definition unauthorizedResponse (err : error) : Response :=
  let message :=
    if errors_Is err SMissingToken then "Missing authorization token"
    else if errors_Is err SSignatureInvalid then "Invalid token signature"
    else if errors_Is err STokenExpired then "Token expired"
    else "Unauthorized" in
  let status := StatusUnauthorized in
  StatusJSON status (errorDetails message err).

(** *** balance.go *)

Definition GetBalance (c : Ctx unit) : M Response :=
  match getClaimsFromContext c with
  | Err err => mret (unauthorizedResponse err)
  | Ok claims =>
      r ← DB_QueryRow (select_balance (UserID claims));
      match r with
      | Ok quantity => mret (JSON {[ "balance" := JFloat quantity ]})
      | Err err =>
          if errors_Is err SNoRows then
            insertErr ← DB_Exec (insert_balance (UserID claims));
            match insertErr with
            | Some insertErr =>
                mret (StatusJSON StatusInternalServerError
                        (errorDetails "Failed to initialize balance" insertErr))
            | None => mret (JSON {[ "balance" := JInt 0 ]})
            end
          else
            mret (StatusJSON StatusInternalServerError
                    (errorDetails "Failed to fetch balance" err))
      end
  end.

(** [tx] is a pointer: [None] is nil. *)
Definition ensureBalanceRecord (tx : option Tx) (userID : Z) : M (option error) :=
  match tx with
  | None => mret (Some (Errorf "transaction is required to ensure balance record"))
  | Some tx => Tx_Exec tx (insert_balance userID)
  end.

(** *** The promocode handlers *)

Record addPromocodeRequest : Type := mkAddPromocodeRequest {
  req_Name : string;
  req_Keyword : string;
  req_Quantity : string;           (* json.RawMessage *)
  req_IsActive : option bool;
  req_StartTime : option string;
  req_EndTime : option string;
  req_Metadata : option string;
}.

Record activatePromocodeRequest : Type := mkActivatePromocodeRequest {
  req_Promocode : string;          (* the field Keyword, "promocode" in JSON *)
}.

Record promocodeRecord : Type := mkPromocodeRecord {
  ID : Z;
  Name : string;
  Quantity : float;
  IsActive : bool;
  StartTime : option Time;
  EndTime : option Time;
}.

Definition set_IsActive (b : bool) (r : promocodeRecord) : promocodeRecord :=
  mkPromocodeRecord (ID r) (Name r) (Quantity r) b (StartTime r) (EndTime r).

(** The byte 0x22. *)
Definition quote : ascii := ascii_of_nat 34.

Definition parseFlexibleQuantity (raw : string) : result float :=
  if (String.length raw =? 0)%nat then Err (Errorf "quantity is required")
  else
    let trimmed := TrimSpace raw in
    if String.eqb trimmed "" || EqualFold trimmed "null" then Err (Errorf "quantity is required")
    else
      let unquoted :=
        match trimmed with
        | String c _ =>
            if Ascii.eqb c quote then
              match strconv_Unquote trimmed with
              | Err err => Err (Wrap "invalid quantity" err)
              | Ok unquoted =>
                  let trimmed := TrimSpace unquoted in
                  if String.eqb trimmed "" then Err (Errorf "quantity is required")
                  else Ok trimmed
              end
            else Ok trimmed
        | EmptyString => Ok trimmed
        end in
      match unquoted with
      | Err err => Err err
      | Ok trimmed =>
          match strconv_ParseFloat trimmed with
          | Err err => Err (Wrap "invalid quantity" err)
          | Ok value => Ok value
          end
      end.

Definition layouts : list string :=
  [ "2006-01-02T15:04:05Z07:00";     (* time.RFC3339 *)
    "2006-01-02T15:04:05";
    "2006-01-02T15:04";
    "2006-01-02 15:04:05";
    "2006-01-02 15:04";
    "2006-01-02" ].

Fixpoint parseTimeInput_from (layouts : list string) (value trimmed : string) : result Time :=
  match layouts with
  | [] => Err (Errorf ("unsupported time format: " +:+ value))
  | layout :: rest =>
      match time_Parse layout trimmed with
      | Ok parsed => Ok parsed
      | Err _ => parseTimeInput_from rest value trimmed
      end
  end.

Definition parseTimeInput (value : string) : result Time :=
  parseTimeInput_from layouts value (TrimSpace value).

(** The two results are pointers: [Some] on success, nil with an error. *)
Definition resolvePromocodeTimes (start end_ : option string)
  : M (result (option Time * option Time)) :=
  now ← time_Now;
  mret
    (let given (s : option string) : option string :=
       match s with
       | Some v => if negb (String.eqb (TrimSpace v) "") then Some v else None
       | None => None
       end in
     let startTime :=
       match given start with
       | Some v => parseTimeInput v
       | None => Ok now
       end in
     match startTime with
     | Err err => Err err
     | Ok startTime =>
         let endTime :=
           match given end_ with
           | Some v => parseTimeInput v
           | None => Ok (Add startTime (30 * 24 * Hour))
           end in
         match endTime with
         | Err err => Err err
         | Ok endTime =>
             if negb (After endTime startTime)
             then Err (Errorf "end time must be after start time")
             else Ok (Some startTime, Some endTime)
         end
     end).

Definition normalizeQuantity (value : sqlval) : result float :=
  match value with
  | VNull => Err (Errorf "quantity value is nil")
  | VFloat64 v => Ok v
  | VInt64 v => Ok (float_of_Z v)
  | VInt32 v => Ok (float_of_Z v)
  | VUint64 v => Ok (float_of_Z v)
  | VBytes v => strconv_ParseFloat v
  | VString v => strconv_ParseFloat v
  | VBool _ => Err (Errorf "unsupported quantity type bool")
  end.

(** [record] is a pointer: [None] is nil. *)
Definition computePromocodeActive (record : option promocodeRecord) : M bool :=
  match record with
  | None => mret false
  | Some record =>
      now ← time_Now;
      mret
        (if match StartTime record with Some start => Before now start | None => false end
         then false
         else if match EndTime record with Some end_ => After now end_ | None => false end
         then false
         else true)
  end.

Definition charset : string := "ABCDEFGHIJKLMNOPQRSTUVWXYZ0123456789".

(** [charset[i]] for an index in range *)
Definition charset_at (i : nat) : ascii :=
  nth i (list_ascii_of_string charset) Ascii.zero.

Definition generatePromocodeKeyword (length : Z) : M (result string) :=
  if length <=? 0 then mret (Err (Errorf "length must be positive"))
  else
    r ← rand_Read (Z.to_nat length);
    match r with
    | Err err => mret (Err err)
    | Ok bytes =>
        mret (Ok (string_of_list_ascii
                    (map (fun b => charset_at (nat_of_ascii b mod String.length charset)) bytes)))
    end.

Definition findPromocodeByKeyword (keyword : string) : M (result promocodeRecord) :=
  let legacy : M (result promocodeRecord) :=
    r ← DB_QueryRow (select_promocodes false keyword);
    match r with
    | Ok row =>
        mret (Ok (mkPromocodeRecord (lp_id row) "" (lp_quantity row) (lp_is_active row) None None))
    | Err err =>
        match as_pq err with
        | Some code =>
            if String.eqb code "42703" then
              r ← DB_QueryRow (select_promocodes true keyword);
              match r with
              | Err err => mret (Err err)
              | Ok row =>
                  mret (Ok (mkPromocodeRecord (lp_id row) "" (lp_quantity row) (lp_is_active row)
                              None None))
              end
            else if String.eqb code "42P01" then
              mret (Err (Errorf "promocodes table not found"))
            else mret (Err err)
        | None => mret (Err err)
        end
    end in
  r ← DB_QueryRow (select_promocode keyword);
  match r with
  | Ok row =>
      match normalizeQuantity (pr_quantity row) with
      | Err convErr => mret (Err convErr)
      | Ok q =>
          let record :=
            mkPromocodeRecord (pr_id row) (pr_name row) q false
                              (pr_start_time row) (pr_end_time row) in
          active ← computePromocodeActive (Some record);
          mret (Ok (set_IsActive active record))
      end
  | Err err =>
      if errors_Is err SNoRows then legacy
      else
        match as_pq err with
        | Some code =>
            if String.eqb code "42P01" || String.eqb code "42703" then legacy
            else mret (Err err)
        | None => mret (Err err)
        end
  end.

Definition AddPromocode (c : Ctx addPromocodeRequest) : M Response :=
  match getClaimsFromContext c with
  | Err err => mret (unauthorizedResponse err)
  | Ok claims =>
  isAdmin ← isUserAdmin (UserID claims);
  match isAdmin with
  | Err err =>
      mret (StatusJSON StatusInternalServerError
              (errorDetails "Failed to verify admin status" err))
  | Ok isAdmin =>
  if negb isAdmin then
    mret (StatusJSON StatusForbidden (errorBody "Admin privileges required"))
  else
  match ctx_body c with
  | Err err => mret (StatusJSON StatusBadRequest (errorDetails "Invalid request payload" err))
  | Ok req =>
  let name := TrimSpace (req_Name req) in
  if String.eqb name "" then
    mret (StatusJSON StatusBadRequest (errorBody "Name is required"))
  else
  match parseFlexibleQuantity (req_Quantity req) with
  | Err err => mret (StatusJSON StatusBadRequest (errorDetails "Invalid quantity" err))
  | Ok quantityValue =>
  if PrimFloat.leb quantityValue 0 then
    mret (StatusJSON StatusBadRequest (errorBody "Quantity must be greater than zero"))
  else if math_IsNaN quantityValue || math_IsInf quantityValue then
    mret (StatusJSON StatusBadRequest (errorBody "Quantity must be a finite number"))
  else
  let roundedQuantity := math_Round quantityValue in
  if PrimFloat.ltb epsilon (math_Abs (PrimFloat.sub quantityValue roundedQuantity)) then
    mret (StatusJSON StatusBadRequest (errorBody "Quantity must be an integer value"))
  else
  let quantityInt := int64_of_float roundedQuantity in
  let keyword := TrimSpace (req_Keyword req) in
  generated ←
    (if String.eqb keyword "" || EqualFold keyword "none"
     then generatePromocodeKeyword 8
     else mret (Ok keyword));
  match generated with
  | Err genErr =>
      mret (StatusJSON StatusInternalServerError
              (errorDetails "Failed to generate promocode keyword" genErr))
  | Ok keyword =>
  let isActive := match req_IsActive req with Some b => b | None => true end in
  times ← resolvePromocodeTimes (req_StartTime req) (req_EndTime req);
  match times with
  | Err parseErr =>
      mret (StatusJSON StatusBadRequest (errorDetails "Invalid start or end time" parseErr))
  | Ok (startTime, endTime) =>
  let failed (err : error) : M Response :=
    mret (StatusJSON StatusInternalServerError (errorDetails "Failed to create promocode" err)) in
  let conflict : M Response :=
    mret (StatusJSON StatusConflict (errorBody "Promocode keyword already exists")) in
  let legacy : M Response :=
    let response : gmap string jval :=
      <["name" := JStr name]> (<["quantity" := JInt quantityInt]>
        (<["active" := JBool isActive]> {[ "keyword" := JStr keyword ]})) in
    let response :=
      match startTime with
      | Some t => <["start_time" := JStr (format_RFC3339 t)]> response
      | None => response
      end in
    let response :=
      match endTime with
      | Some t => <["end_time" := JStr (format_RFC3339 t)]> response
      | None => response
      end in
    err ← DB_Exec (insert_promocodes true keyword quantityInt isActive);
    match err with
    | None => mret (JSON response)
    | Some err =>
        match as_pq err with
        | Some code =>
            if String.eqb code "23505" then conflict
            else if String.eqb code "42703" then
              retryErr ← DB_Exec (insert_promocodes false keyword quantityInt isActive);
              match retryErr with
              | Some retryErr => failed retryErr
              | None => mret (JSON response)
              end
            else failed err
        | None => failed err
        end
    end in
  match startTime, endTime with
  | Some start, Some end_ =>
      err ← DB_Exec (insert_promocode name keyword start end_ quantityInt);
      match err with
      | None =>
          activeNow ← computePromocodeActive
                        (Some (mkPromocodeRecord 0 "" 0%float false startTime endTime));
          mret (JSON (<["end_time" := JStr (format_RFC3339 end_)]>
                      (<["start_time" := JStr (format_RFC3339 start)]>
                      (<["name" := JStr name]> (<["quantity" := JInt quantityInt]>
                      (<["active" := JBool activeNow]> {[ "keyword" := JStr keyword ]}))))))
      | Some err =>
          match as_pq err with
          | Some code =>
              if String.eqb code "23505" then conflict
              else if String.eqb code "42P01" || String.eqb code "42703" then legacy
              else failed err
          | None => failed err
          end
      end
  | _, _ => legacy
  end
  end end end end end end.

Definition ActivatePromocode (c : Ctx activatePromocodeRequest) : M Response :=
  match getClaimsFromContext c with
  | Err err => mret (unauthorizedResponse err)
  | Ok claims =>
  match ctx_body c with
  | Err err => mret (StatusJSON StatusBadRequest (errorDetails "Invalid request payload" err))
  | Ok req =>
  let keyword := TrimSpace (req_Promocode req) in
  if String.eqb keyword "" then
    mret (StatusJSON StatusBadRequest (errorBody "Promocode keyword is required"))
  else
  record ← findPromocodeByKeyword keyword;
  match record with
  | Err err =>
      if errors_Is err SNoRows then
        mret (StatusJSON StatusNotFound (errorBody "Promocode not found"))
      else
        mret (StatusJSON StatusInternalServerError (errorDetails "Failed to fetch promocode" err))
  | Ok record =>
  if negb (IsActive record) then
    mret (StatusJSON StatusBadRequest (errorBody "Promocode is not active"))
  else
  tx ← Begin;
  match tx with
  | Err err =>
      mret (StatusJSON StatusInternalServerError (errorDetails "Failed to start transaction" err))
  | Ok tx =>
  defer (Rollback tx) (
  let already : M Response :=
    mret (StatusJSON StatusBadRequest (errorBody "Promocode already activated by this user")) in
  let recorded : M Response :=
    err ← Commit tx;
    match err with
    | Some err =>
        mret (StatusJSON StatusInternalServerError
                (errorDetails "Failed to complete activation" err))
    | None =>
        newBalance ← DB_QueryRow (select_balance (UserID claims));
        match newBalance with
        | Err err =>
            mret (StatusJSON StatusInternalServerError
                    (errorDetails "Failed to fetch updated balance" err))
        | Ok newBalance =>
            mret (JSON (<["balance" := JFloat newBalance]>
                        {[ "message" := JStr "Promocode activated successfully" ]}))
        end
    end in
  let credit : M Response :=
    err ← ensureBalanceRecord (Some tx) (UserID claims);
    match err with
    | Some err =>
        mret (StatusJSON StatusInternalServerError
                (errorDetails "Failed to prepare balance record" err))
    | None =>
    err ← Tx_Exec tx (update_balance (Quantity record) (UserID claims));
    match err with
    | Some err =>
        mret (StatusJSON StatusInternalServerError (errorDetails "Failed to update balance" err))
    | None =>
    now ← time_Now;
    err ← Tx_Exec tx (insert_activation (ID record) (UserID claims) now
                        (int64_of_float (math_Round (Quantity record))));
    match err with
    | None => recorded
    | Some err =>
        let failed (err : error) : M Response :=
          mret (StatusJSON StatusInternalServerError
                  (errorDetails "Failed to record promocode activation" err)) in
        match as_pq err with
        | Some code =>
            if String.eqb code "42703" || String.eqb code "42P01" then
              retryErr ← Tx_Exec tx (insert_activations (ID record) (UserID claims) now);
              match retryErr with
              | Some retryErr => failed retryErr
              | None => recorded
              end
            else if String.eqb code "23505" then already
            else failed err
        | None => failed err
        end
    end
    end
    end in
  existing ← Tx_QueryRow tx (select_activation (ID record) (UserID claims));
  match existing with
  | Ok _ => already
  | Err err =>
      let failed (err : error) : M Response :=
        mret (StatusJSON StatusInternalServerError
                (errorDetails "Failed to check promocode activation" err)) in
      if errors_Is err SNoRows then credit
      else
        match as_pq err with
        | Some code =>
            if String.eqb code "42P01" || String.eqb code "42703" then
              existing ← Tx_QueryRow tx (select_activations (ID record) (UserID claims));
              match existing with
              | Err fallbackErr =>
                  if errors_Is fallbackErr SNoRows then credit
                  else
                    mret (StatusJSON StatusInternalServerError
                            (errorDetails "Failed to check legacy promocode activation"
                                          fallbackErr))
              | Ok _ => already
              end
            else failed err
        | None => failed err
        end
  end)
  end end end end.

End Handlers.

(** ** A concrete library, to run the handlers

    An instance of [GoLib] for running the handlers on concrete requests: it
    agrees with Go's library on the inputs it accepts (plain decimal
    numerals of at most fifteen digits, [NaN] and [Inf]; double-quoted
    strings without escapes; UTC timestamps and dates) and rejects the
    rest as a syntax error. *)

Module Reference.

Definition digit (c : ascii) : option Z :=
  let n := nat_of_ascii c in
  if ((48 <=? n) && (n <=? 57))%nat then Some (Z.of_nat n - 48) else None.

Fixpoint digits_from (s : string) (acc : Z) : option Z :=
  match s with
  | EmptyString => Some acc
  | String c s' =>
      match digit c with
      | Some d => digits_from s' (10 * acc + d)
      | None => None
      end
  end.

(** The value of a non-empty string of decimal digits. *)
Definition digits (s : string) : option Z :=
  match s with
  | EmptyString => None
  | _ => digits_from s 0
  end.

Fixpoint split_at_dot (s : string) : string * option string :=
  match s with
  | EmptyString => (EmptyString, None)
  | String c s' =>
      if Ascii.eqb c "."%char then (EmptyString, Some s')
      else let '(a, b) := split_at_dot s' in (String c a, b)
  end.

Definition syntax_error (fn s : string) : error :=
  Errorf ("strconv." +:+ fn +:+ ": parsing " +:+ s +:+ ": invalid syntax").

Definition unsigned_float (s : string) : option float :=
  if EqualFold s "nan" then Some PrimFloat.nan
  else if EqualFold s "inf" || EqualFold s "infinity" then Some PrimFloat.infinity
  else
    let '(int_part, frac_part) := split_at_dot s in
    let frac := match frac_part with Some f => f | None => EmptyString end in
    let all := int_part +:+ frac in
    if (15 <? String.length all)%nat then None
    else
      match digits all with
      | Some m =>
          Some (PrimFloat.div (float_of_Z m) (float_of_Z (10 ^ Z.of_nat (String.length frac))))
      | None => None
      end.

Definition ParseFloat (s : string) : result float :=
  let '(negative, rest) :=
    match s with
    | String c s' =>
        if Ascii.eqb c "-"%char then (true, s')
        else if Ascii.eqb c "+"%char then (false, s')
        else (false, s)
    | EmptyString => (false, s)
    end in
  match unsigned_float rest with
  | Some x => Ok (if negative then PrimFloat.opp x else x)
  | None => Err (syntax_error "ParseFloat" s)
  end.

Definition plain (c : ascii) : bool :=
  negb (Ascii.eqb c quote) && negb (Ascii.eqb c "\"%char) && negb (Ascii.eqb c (ascii_of_nat 10)).

Definition Unquote (s : string) : result string :=
  match s with
  | String c s' =>
      match String.rev s' with
      | String c' inner =>
          if Ascii.eqb c quote && Ascii.eqb c' quote
             && forallb plain (list_ascii_of_string inner)
          then Ok (String.rev inner)
          else Err (Errorf "invalid syntax")
      | EmptyString => Err (Errorf "invalid syntax")
      end
  | EmptyString => Err (Errorf "invalid syntax")
  end.

(** Days from 1970-01-01 to the given civil date (proleptic Gregorian). *)
Definition days_from_civil (y m d : Z) : Z :=
  let y := if m <=? 2 then y - 1 else y in
  let era := y / 400 in
  let yoe := y - era * 400 in
  let doy := (153 * (if 2 <? m then m - 3 else m + 9) + 2) / 5 + d - 1 in
  let doe := yoe * 365 + yoe / 4 - yoe / 100 + doy in
  era * 146097 + doe - 719468.

Definition civil_from_days (z : Z) : Z * Z * Z :=
  let z := z + 719468 in
  let era := z / 146097 in
  let doe := z - era * 146097 in
  let yoe := (doe - doe / 1460 + doe / 36524 - doe / 146096) / 365 in
  let doy := doe - (365 * yoe + yoe / 4 - yoe / 100) in
  let mp := (5 * doy + 2) / 153 in
  let d := doy - (153 * mp + 2) / 5 + 1 in
  let m := if mp <? 10 then mp + 3 else mp - 9 in
  let y := yoe + era * 400 in
  ((if m <=? 2 then y + 1 else y), m, d).

Definition field (s : string) (pos len : nat) : option Z := digits (substring pos len s).

Definition sep (s : string) (pos : nat) (c : ascii) : bool :=
  match String.get pos s with
  | Some c' => Ascii.eqb c c'
  | None => false
  end.

Definition second : Z := 1000000000.

Definition parse_date (s : string) : option Z :=
  match field s 0 4, field s 5 2, field s 8 2 with
  | Some y, Some m, Some d =>
      if sep s 4 "-" && sep s 7 "-" && (1 <=? m) && (m <=? 12) && (1 <=? d) && (d <=? 31)
      then Some (days_from_civil y m d * 86400 * second)
      else None
  | _, _, _ => None
  end.

Definition parse_clock (s : string) : option Z :=
  match field s 11 2, field s 14 2, field s 17 2 with
  | Some h, Some mi, Some se =>
      if sep s 13 ":" && sep s 16 ":" && (h <? 24) && (mi <? 60) && (se <? 60)
      then Some ((h * 3600 + mi * 60 + se) * second)
      else None
  | _, _, _ => None
  end.

Definition Parse (layout value : string) : result Time :=
  let bad := Err (Errorf ("parsing time " +:+ value +:+ " as " +:+ layout)) in
  if String.eqb layout "2006-01-02T15:04:05Z07:00" then
    match parse_date value, parse_clock value with
    | Some d, Some c =>
        if (String.length value =? 20)%nat && sep value 10 "T" && sep value 19 "Z"
        then Ok (d + c) else bad
    | _, _ => bad
    end
  else if String.eqb layout "2006-01-02" then
    match parse_date value with
    | Some d => if (String.length value =? 10)%nat then Ok d else bad
    | None => bad
    end
  else bad.

Definition two (n : Z) : string := (if n <? 10 then "0" else "") +:+ pretty n.
Definition four (n : Z) : string :=
  (if n <? 10 then "000" else if n <? 100 then "00" else if n <? 1000 then "0" else "") +:+ pretty n.

Definition Format (t : Time) : string :=
  let secs := t / second in
  let '(y, m, d) := civil_from_days (secs / 86400) in
  let rest := secs mod 86400 in
  four y +:+ "-" +:+ two m +:+ "-" +:+ two d +:+ "T" +:+ two (rest / 3600) +:+ ":"
    +:+ two (rest mod 3600 / 60) +:+ ":" +:+ two (rest mod 60) +:+ "Z".

#[export] Instance lib : GoLib := {|
  strconv_ParseFloat := ParseFloat;
  strconv_Unquote := Unquote;
  time_Parse := Parse;
  format_RFC3339 := Format;
|}.

(** A store in the current layout only: no legacy table. *)
Definition current_tables : Tables := {|
  promocode := Some [ mkPromocodeRow 1 "Welcome" "WELCOME" None None (VInt64 100);
                      mkPromocodeRow 2 "Spring" "SPRING" (Some 1000) (Some 2000) (VBytes "25") ];
  promocodes := None;
  promocode_activation := Some [ mkActivationRow 1 43 500 100 ];
  promocode_activations := None;
  balance := {[ 43 := 100%float; 44 := 7%float ]};
  admin_answers := fun i user => if (i =? 0)%nat then Ok (user =? 1) else Err ErrNoRows;
|}.

(** A store in the legacy layout only. *)
Definition legacy_tables : Tables := {|
  promocode := None;
  promocodes := Some (mkLegacyLayout true true true,
                      [ mkLegacyPromocode 1 "OLD" 50%float false;
                        mkLegacyPromocode 2 "GOLD" 75%float true ]);
  promocode_activation := None;
  promocode_activations := Some [];
  balance := ∅;
  admin_answers := fun i user => if (i =? 0)%nat then Ok (user =? 1) else Err ErrNoRows;
|}.

(** A legacy store whose [promocodes] table has no [created_at] column. *)
Definition legacy_tables_no_created_at : Tables :=
  set_promocodes
    (Some (mkLegacyLayout true true false, [ mkLegacyPromocode 1 "GOLD" 75%float true ]))
    legacy_tables.

(** A world at rest: no transaction open, no failure imposed, the clock
    reading [now] and advancing by one nanosecond per reading. *)
Definition world (t : Tables) (now : Time) : World := {|
  committed := t;
  pending := None;
  faults := [];
  txlog := [];
  clock := fun n => now + Z.of_nat n;
  ticks := 0;
  entropy := map ascii_of_nat [0; 35; 36; 71; 200; 255; 26; 9; 17; 3]%nat;
|}.

Definition request {Req : Type} (user : Z) (req : Req) : Ctx Req :=
  mkCtx (Ok (mkClaims user)) (Ok req).

End Reference.

(** ** The other functions of the handlers' files *)

Section MoreHandlers.
Context `{GoLib}.

(** *** auth_utils.go: the token of a request *)

(** What [extractTokenFromRequest] reads of a request: [c.Get(key)] and
    [c.Query(key)], each answering the empty string for a key that is
    absent. *)
Record HttpRequest : Type := mkHttpRequest {
  Get : string -> string;
  Query : string -> string;
}.

(** The first space of a string: what stands before it and after it. *)
Fixpoint cut_at_space (s : string) : option (string * string) :=
  match s with
  | EmptyString => None
  | String c s' =>
      if Ascii.eqb c " "%char then Some (EmptyString, s')
      else
        match cut_at_space s' with
        | Some (a, b) => Some (String c a, b)
        | None => None
        end
  end.

(** [strings.SplitN(s, " ", 2)] *)
Definition SplitN2 (s : string) : list string :=
  match cut_at_space s with
  | Some (a, b) => [a; b]
  | None => [s]
  end.

Definition extractTokenFromRequest (c : HttpRequest) : result string :=
  let others : result string :=
    let token := Get c "X-Auth-Token" in
    if negb (String.eqb token "") then Ok token
    else
      let token := Query c "token" in
      if negb (String.eqb token "") then Ok token
      else Err ErrMissingToken in
  let authHeader := Get c "Authorization" in
  if negb (String.eqb authHeader "") then
    match SplitN2 authHeader with
    | [scheme; rest] =>
        if EqualFold scheme "Bearer" && negb (String.eqb rest "")
        then Ok (TrimSpace rest)
        else others
    | _ => others
    end
  else others.

(** *** VerifyAdmin *)

Definition VerifyAdmin (c : Ctx unit) : M Response :=
  match getClaimsFromContext c with
  | Err err => mret (unauthorizedResponse err)
  | Ok claims =>
      isAdmin ← isUserAdmin (UserID claims);
      match isAdmin with
      | Err err =>
          mret (StatusJSON StatusInternalServerError
                  (errorDetails "Failed to verify admin status" err))
      | Ok isAdmin => mret (JSON {[ "is_admin" := JBool isAdmin ]})
      end
  end.

(** *** The redemptions of a user *)

Record promocodeActivationResponse : Type := mkPromocodeActivationResponse {
  item_PromocodeID : Z;
  item_Keyword : string;
  item_Quantity : float;
  item_ActivatedAt : option Time;
  item_StartTime : option Time;
  item_EndTime : option Time;
}.

(** A row of the join of a redemption with its code, as the driver hands
    it to [Scan]; the legacy join has no start and no end time. *)
Record activationJoin : Type := mkActivationJoin {
  aj_promocode_id : Z;
  aj_keyword : string;
  aj_quantity : sqlval;
  aj_activated : option Time;
  aj_start_time : option Time;
  aj_end_time : option Time;
}.

(** ORDER BY a time, DESC: the most recent first (rows of the same time in
    an order of the store's choosing). *)
Fixpoint insert_recent {A : Type} (time : A -> Time) (x : A) (l : list A) : list A :=
  match l with
  | [] => [x]
  | y :: l' => if time y <? time x then x :: l else y :: insert_recent time x l'
  end.

Definition most_recent_first {A : Type} (time : A -> Time) (l : list A) : list A :=
  foldr (insert_recent time) [] l.

(** SELECT pa.promocode_id, p.keyword, p.quantity, pa.enable_time, p.start_time, p.end_time
    FROM promocode_activation pa JOIN promocode p ON p.id = pa.promocode_id
    WHERE pa.user_id = $1 ORDER BY pa.enable_time DESC *)
Definition select_user_activation (user_id : Z) : stmt (list activationJoin) := fun t =>
  match promocode_activation t, promocode t with
  | None, _ => (Err (undefined_table "promocode_activation"), t)
  | _, None => (Err (undefined_table "promocode"), t)
  | Some activations, Some codes =>
      (Ok (flat_map
             (fun a =>
                map (fun p => mkActivationJoin (ar_promocode_id a) (pr_keyword p) (pr_quantity p)
                                (Some (ar_enable_time a)) (pr_start_time p) (pr_end_time p))
                    (List.filter (fun p => pr_id p =? ar_promocode_id a) codes))
             (most_recent_first ar_enable_time
                (List.filter (fun a => ar_user_id a =? user_id) activations))), t)
  end.

(** SELECT pa.promocode_id, p.keyword, p.quantity, pa.activated_at
    FROM promocode_activations pa JOIN promocodes p ON p.promocode_id = pa.promocode_id
    WHERE pa.user_id = $1 ORDER BY pa.activated_at DESC
    and, with [alt], the same query joining ON p.id = pa.promocode_id *)
Definition select_user_activations (alt : bool) (user_id : Z) : stmt (list activationJoin) :=
  fun t =>
  match promocode_activations t, promocodes t with
  | None, _ => (Err (undefined_table "promocode_activations"), t)
  | _, None => (Err (undefined_table "promocodes"), t)
  | Some activations, Some (layout, codes) =>
      if negb (Bool.eqb (has_promocode_id layout) (negb alt)) then
        (Err (undefined_column (if alt then "p.id" else "p.promocode_id")), t)
      else
        (Ok (flat_map
               (fun a =>
                  map (fun p => mkActivationJoin (la_promocode_id a) (lp_keyword p)
                                  (VFloat64 (lp_quantity p)) (Some (la_activated_at a)) None None)
                      (List.filter (fun p => lp_id p =? la_promocode_id a) codes))
               (most_recent_first la_activated_at
                  (List.filter (fun a => la_user_id a =? user_id) activations))), t)
  end.

(** [db.DB.Query(q, ...)]: the rows the query answers. *)
Definition DB_Query {A : Type} (q : stmt A) : M (result A) := DB_QueryRow q.

(** Reading the rows of a query to their end ([rows.Next()], [rows.Scan(...)]
    and the final [rows.Err()]) is a round trip to the store of its own: it
    fails with the error the environment imposes on it. *)
Definition Rows_read : M (option error) := next_fault.

(** What the fetch functions answer as their error: the sentinel
    [errLegacyPromocodeSchema], recognised by identity, or another error. *)
Inductive fetchError : Type :=
  | LegacyPromocodeSchema
  | OtherError (err : error).

(** The loop over the rows that have been read: the quantity of each is
    normalised, and the item appended to the results; the first quantity
    that does not convert ends the loop with its error. *)
Fixpoint collectActivations (rows : list activationJoin)
    (results : list promocodeActivationResponse) : result (list promocodeActivationResponse) :=
  match rows with
  | [] => Ok results
  | row :: rest =>
      match normalizeQuantity (aj_quantity row) with
      | Err convErr => Err convErr
      | Ok q =>
          collectActivations rest
            (results ++ [mkPromocodeActivationResponse (aj_promocode_id row) (aj_keyword row) q
                           (aj_activated row) (aj_start_time row) (aj_end_time row)])%list
      end
  end.

Definition fetchPromocodeActivationsNew (userID : Z)
  : M (fetchError + list promocodeActivationResponse) :=
  rows ← DB_Query (select_user_activation userID);
  match rows with
  | Err err =>
      match as_pq err with
      | Some code =>
          if String.eqb code "42P01" || String.eqb code "42703"
          then mret (inl LegacyPromocodeSchema)
          else mret (inl (OtherError err))
      | None => mret (inl (OtherError err))
      end
  | Ok rows =>
      broken ← Rows_read;
      match broken with
      | Some err => mret (inl (OtherError err))
      | None =>
          match collectActivations rows [] with
          | Err err => mret (inl (OtherError err))
          | Ok results => mret (inr results)
          end
      end
  end.

Definition fetchPromocodeActivationsLegacy (userID : Z)
  : M (fetchError + list promocodeActivationResponse) :=
  rows ← DB_Query (select_user_activations false userID);
  rows ←
    match rows with
    | Err err =>
        match as_pq err with
        | Some code =>
            if String.eqb code "42703"
            then DB_Query (select_user_activations true userID)
            else mret (Err err)
        | None => mret (Err err)
        end
    | Ok rows => mret (Ok rows)
    end;
  match rows with
  | Err err => mret (inl (OtherError err))
  | Ok rows =>
      broken ← Rows_read;
      match broken with
      | Some err => mret (inl (OtherError err))
      | None =>
          match collectActivations rows [] with
          | Err err => mret (inl (OtherError err))
          | Ok results => mret (inr results)
          end
      end
  end.

Definition fetchPromocodeActivations (userID : Z)
  : M (fetchError + list promocodeActivationResponse) :=
  records ← fetchPromocodeActivationsNew userID;
  match records with
  | inl LegacyPromocodeSchema => fetchPromocodeActivationsLegacy userID
  | inl err => mret (inl err)
  | inr records => mret (inr records)
  end.

(** [err.Error()] of what the fetch functions answer. *)
Definition fetchError_Error (err : fetchError) : string :=
  match err with
  | LegacyPromocodeSchema => "legacy_promocode_schema"
  | OtherError err => Error err
  end.

(** What [GetPastPromocodes] sends: the list, as the field [activations]
    of a 200 response, or an error response. *)
Inductive PastPromocodes : Type :=
  | Activations (activations : list promocodeActivationResponse)
  | NoActivations (response : Response).

Definition GetPastPromocodes (c : Ctx unit) : M PastPromocodes :=
  match getClaimsFromContext c with
  | Err err => mret (NoActivations (unauthorizedResponse err))
  | Ok claims =>
      activations ← fetchPromocodeActivations (UserID claims);
      match activations with
      | inl err =>
          mret (NoActivations
                  (StatusJSON StatusInternalServerError
                     (<["details" := JStr (fetchError_Error err)]>
                        {[ "error" := JStr "Failed to fetch promocode activations" ]})))
      | inr activations => mret (Activations activations)
      end
  end.

End MoreHandlers.

(** * Properties *)

(** ** Running the monad *)

Lemma bind_run {A B : Type} (m : M A) (f : A -> M B) (w : World) :
  (m ≫= f) w = let '(a, w') := m w in f a w'.
Proof. reflexivity. Qed.

Lemma ret_run {A : Type} (a : A) (w : World) : mret (M := M) a w = (a, w).
Proof. reflexivity. Qed.

(** Unfolds the monad's operations, so that a computation applied to a world
    shows the sequence of its steps. *)
Ltac run := unfold defer, mbind, M_bind, mret, M_ret in *.

(** Records a fact unless it is already known. *)
Ltac learn H :=
  let T := type of H in
  lazymatch goal with
  | _ : T |- _ => fail
  | _ => pose proof H
  end.

(** ** Response bodies *)

Lemma errorBody_error (message : string) :
  errorBody message !! "error" = Some (JStr message).
Proof. reflexivity. Qed.

Lemma errorBody_details (message : string) : errorBody message !! "details" = None.
Proof. reflexivity. Qed.

Lemma errorDetails_error (message : string) (err : error) :
  errorDetails message err !! "error" = Some (JStr message).
Proof. reflexivity. Qed.

Lemma errorDetails_details (message : string) (err : error) :
  errorDetails message err !! "details" = Some (JStr (Error err)).
Proof. reflexivity. Qed.

(** ** The active window *)

Section ActiveWindow.
Context `{GoLib}.

(** [now] lies in the closed interval from [start] to [end_], an absent
    bound leaving its side open. *)
Definition in_window (now : Time) (start end_ : option Time) : Prop :=
  (forall s, start = Some s -> s <= now) /\ (forall e, end_ = Some e -> now <= e).

Lemma computePromocodeActive_run (record : promocodeRecord) (w : World) :
  computePromocodeActive (Some record) w =
    ((if match StartTime record with
          | Some start => Before (clock w (ticks w)) start
          | None => false
          end
      then false
      else if match EndTime record with
              | Some end_ => After (clock w (ticks w)) end_
              | None => false
              end
      then false else true),
     set_ticks (S (ticks w)) w).
Proof. reflexivity. Qed.

Lemma computePromocodeActive_window (record : promocodeRecord) (w : World) :
  (computePromocodeActive (Some record) w).1 = true <->
  in_window (clock w (ticks w)) (StartTime record) (EndTime record).
Proof.
  rewrite computePromocodeActive_run. unfold in_window, Before, After. simpl.
  destruct (StartTime record) as [s|], (EndTime record) as [e|]; simpl.
  all: repeat case_match; split; try discriminate; try reflexivity.
  all: try (intros _; split; intros ? [= <-]; lia).
  all: try (intros [Hs He]; try specialize (Hs _ eq_refl); try specialize (He _ eq_refl); lia).
Qed.

(** A nil record is never active. *)
Lemma computePromocodeActive_nil (w : World) : computePromocodeActive None w = (false, w).
Proof. reflexivity. Qed.

(** What [findPromocodeByKeyword] answers once the current table has
    answered a row: the row's bounds, and the window test at the next
    reading of the clock. *)
Lemma findPromocodeByKeyword_current (keyword : string) (w w1 : World) (row : promocodeRow) :
  DB_QueryRow (select_promocode keyword) w = (Ok row, w1) ->
  findPromocodeByKeyword keyword w =
    match normalizeQuantity (pr_quantity row) with
    | Err convErr => (Err convErr, w1)
    | Ok q =>
        let record := mkPromocodeRecord (pr_id row) (pr_name row) q false
                                        (pr_start_time row) (pr_end_time row) in
        (Ok (set_IsActive (computePromocodeActive (Some record) w1).1 record),
         set_ticks (S (ticks w1)) w1)
    end.
Proof.
  intros E. unfold findPromocodeByKeyword. rewrite bind_run, E.
  destruct (normalizeQuantity (pr_quantity row)); reflexivity.
Qed.

(** What [findPromocodeByKeyword] answers from the legacy table: a record
    without bounds whose [IsActive] is the stored flag. *)
Definition legacy_record (row : legacyPromocode) : promocodeRecord :=
  mkPromocodeRecord (lp_id row) "" (lp_quantity row) (lp_is_active row) None None.

Lemma findPromocodeByKeyword_legacy (keyword : string) (w w1 w' : World) (err : error)
    (record : promocodeRecord) :
  DB_QueryRow (select_promocode keyword) w = (Err err, w1) ->
  findPromocodeByKeyword keyword w = (Ok record, w') ->
  exists (alt : bool) (w2 : World) (row : legacyPromocode),
    DB_QueryRow (select_promocodes alt keyword) w2 = (Ok row, w') /\
    record = legacy_record row.
Proof.
  intros E. unfold findPromocodeByKeyword. rewrite bind_run, E. run.
  intros F. repeat case_match; simplify_eq; eauto.
Qed.

End ActiveWindow.

(** The four cases of the window, one by one. *)
Lemma computePromocodeActive_cases `{GoLib} (record : promocodeRecord) (w : World) :
  let now := clock w (ticks w) in
  let active := (computePromocodeActive (Some record) w).1 in
  (forall s, StartTime record = Some s -> now < s -> active = false) /\
  (forall e, EndTime record = Some e -> e < now -> active = false) /\
  (StartTime record = None -> EndTime record = None -> active = true) /\
  (forall s e, StartTime record = Some s -> EndTime record = Some e ->
     s <= e -> (now = s \/ now = e) -> active = true).
Proof.
  intros now active. subst now active.
  pose proof (computePromocodeActive_window record w) as W. unfold in_window in W.
  destruct ((computePromocodeActive (Some record) w).1) eqn:E.
  - destruct W as [W _]. destruct (W eq_refl) as [Hs He].
    repeat split; auto; intros.
    + specialize (Hs _ H0). lia.
    + specialize (He _ H0). lia.
  - destruct W as [_ W].
    repeat split; auto; intros; apply W; split; intros; simplify_eq; lia.
Qed.

(** C4, as amended. [computePromocodeActive] answers true exactly when the
    current instant lies in the closed window from the start to the end
    time, an absent bound being unbounded. [findPromocodeByKeyword] applies
    this test to a code it resolves from the current table [promocode]; a
    code it resolves from the legacy table [promocodes] has no bounds, and
    its [IsActive] is the flag stored in the row. *)
Theorem C4_active_window_by_schema `{GoLib} :
  (forall (record : promocodeRecord) (w : World),
     (computePromocodeActive (Some record) w).1 = true <->
     in_window (clock w (ticks w)) (StartTime record) (EndTime record)) /\
  (forall (keyword : string) (w w1 w' : World) (row : promocodeRow) (record : promocodeRecord),
     DB_QueryRow (select_promocode keyword) w = (Ok row, w1) ->
     findPromocodeByKeyword keyword w = (Ok record, w') ->
     StartTime record = pr_start_time row /\ EndTime record = pr_end_time row /\
     (IsActive record = true <->
      in_window (clock w1 (ticks w1)) (pr_start_time row) (pr_end_time row))) /\
  (forall (keyword : string) (w w1 w' : World) (err : error) (record : promocodeRecord),
     DB_QueryRow (select_promocode keyword) w = (Err err, w1) ->
     findPromocodeByKeyword keyword w = (Ok record, w') ->
     StartTime record = None /\ EndTime record = None /\
     exists (alt : bool) (w2 : World) (row : legacyPromocode),
       DB_QueryRow (select_promocodes alt keyword) w2 = (Ok row, w') /\
       IsActive record = lp_is_active row).
Proof.
  split; [exact computePromocodeActive_window|]. split.
  - intros keyword w w1 w' row record E F.
    rewrite (findPromocodeByKeyword_current _ _ _ _ E) in F.
    destruct (normalizeQuantity (pr_quantity row)) as [q|]; [|discriminate].
    simpl in F. injection F as <- <-. simpl.
    split; [reflexivity|]. split; [reflexivity|].
    exact (computePromocodeActive_window
             (mkPromocodeRecord (pr_id row) (pr_name row) q false
                                (pr_start_time row) (pr_end_time row)) w1).
  - intros keyword w w1 w' err record E F.
    destruct (findPromocodeByKeyword_legacy _ _ _ _ _ _ E F) as (alt & w2 & row & Q & ->).
    repeat split. exists alt, w2, row. split; [exact Q | reflexivity].
Qed.

(** C4, as stated, fails on a code resolved from the legacy table: the row
    OLD has no bounds and the flag false, and it is resolved as inactive. *)
Lemma C4_legacy_code_without_bounds_inactive :
  ~ (forall (keyword : string) (w w' : World) (record : promocodeRecord),
       findPromocodeByKeyword (H := Reference.lib) keyword w = (Ok record, w') ->
       StartTime record = None -> EndTime record = None -> IsActive record = true).
Proof.
  intros claim.
  specialize (claim "OLD" (Reference.world Reference.legacy_tables 1500)).
  specialize (claim _ _ eq_refl eq_refl eq_refl). discriminate claim.
Qed.

(** The window at work on the current table: SPRING is bounded by the
    instants 1000 and 2000. *)
Example spring_window :
  map (fun now => match (findPromocodeByKeyword (H := Reference.lib) "SPRING"
                           (Reference.world Reference.current_tables now)).1 with
                  | Ok record => Some (IsActive record)
                  | Err _ => None
                  end) [999; 1000; 1500; 2000; 2001]
  = [Some false; Some true; Some true; Some true; Some false].
Proof. vm_compute. reflexivity. Qed.

(** ** Generated keywords *)

Section Keywords.
Context `{GoLib}.

Definition uppercase_alnum (c : ascii) : bool :=
  let n := nat_of_ascii c in
  ((65 <=? n) && (n <=? 90) || (48 <=? n) && (n <=? 57))%nat.

Lemma charset_length : String.length charset = 36%nat.
Proof. reflexivity. Qed.

Lemma charset_at_alnum (i : nat) : (i < 36)%nat -> uppercase_alnum (charset_at i) = true.
Proof.
  intros Hi. do 36 (destruct i as [|i]; [reflexivity|]). lia.
Qed.

Lemma length_string_of_list_ascii (l : list ascii) :
  String.length (string_of_list_ascii l) = length l.
Proof. induction l as [|c l IH]; simpl; [reflexivity | now rewrite IH]. Qed.

Lemma rand_Read_length (n : nat) (w w' : World) (bytes : list ascii) :
  rand_Read n w = (Ok bytes, w') -> length bytes = n.
Proof.
  unfold rand_Read. destruct (n <=? length (entropy w))%nat eqn:E; [|discriminate].
  intros [= <- <-]. apply Nat.leb_le in E. rewrite length_take. lia.
Qed.

(** A generated keyword has the requested length and only characters of
    the upper-case alphanumeric alphabet. *)
Lemma generatePromocodeKeyword_spec (length : Z) (w w' : World) (keyword : string) :
  generatePromocodeKeyword length w = (Ok keyword, w') ->
  0 < length /\
  String.length keyword = Z.to_nat length /\
  forallb uppercase_alnum (list_ascii_of_string keyword) = true.
Proof.
  unfold generatePromocodeKeyword. destruct (length <=? 0) eqn:L; [discriminate|].
  rewrite bind_run. destruct (rand_Read (Z.to_nat length) w) as [[bytes|err] w1] eqn:R.
  2: discriminate.
  intros [= <- <-]. split; [lia|]. split.
  - rewrite length_string_of_list_ascii, length_map. eapply rand_Read_length, R.
  - rewrite list_ascii_of_string_of_list_ascii, forallb_forall.
    intros c [b [<- _]]%in_map_iff. apply charset_at_alnum.
    exact (Nat.mod_upper_bound (nat_of_ascii b) 36 ltac:(discriminate)).
Qed.

(** With enough entropy the generator answers a keyword. *)
Lemma generatePromocodeKeyword_total (length : Z) (w : World) :
  0 < length -> (Z.to_nat length <= List.length (entropy w))%nat ->
  exists keyword w', generatePromocodeKeyword length w = (Ok keyword, w').
Proof.
  intros L E. unfold generatePromocodeKeyword.
  destruct (length <=? 0) eqn:L'; [lia|]. rewrite bind_run. unfold rand_Read.
  apply Nat.leb_le in E. rewrite E. eauto.
Qed.

End Keywords.

(** ** Symbolic execution of a handler *)

(** One step: a scrutinee whose value is known is replaced by it; any other
    that is itself free of case distinctions is split into its cases. *)
Ltac exec_step :=
  match goal with
  | H : ?x = _ |- context [ match ?x with _ => _ end ] => rewrite H
  | |- context [ match ?x with _ => _ end ] =>
      lazymatch x with
      | context [ match _ with _ => _ end ] => fail
      | _ => let E := fresh "E" in destruct x eqn:E
      end
  end; cbv beta iota zeta delta [negb orb andb].

Ltac exec := run; cbv beta iota zeta delta [negb orb andb] in *; repeat exec_step.

(** The status and the fields of a response that is built by the handlers. *)
Ltac response_fields :=
  cbn [fst snd status body StatusJSON JSON];
  rewrite ?errorBody_error, ?errorBody_details, ?errorDetails_error, ?errorDetails_details.

(** A field of a [fiber.Map] built by successive insertions. *)
Ltac lookup :=
  repeat (rewrite lookup_insert_ne by discriminate);
  first [ apply lookup_insert_eq
        | apply lookup_singleton_eq
        | rewrite lookup_singleton_ne by discriminate; reflexivity
        | apply lookup_empty ].

(** ** Comparisons of binary64 values *)

Lemma float_ltb_leb (x y : float) : PrimFloat.ltb x y = true -> PrimFloat.leb x y = true.
Proof.
  rewrite FloatAxioms.ltb_spec, FloatAxioms.leb_spec. unfold SFltb, SFleb.
  destruct (SFcompare (Prim2SF x) (Prim2SF y)) as [[]|]; congruence.
Qed.

Lemma float_eqb_leb (x y : float) : PrimFloat.eqb x y = true -> PrimFloat.leb x y = true.
Proof.
  rewrite FloatAxioms.eqb_spec, FloatAxioms.leb_spec. unfold SFeqb, SFleb.
  destruct (SFcompare (Prim2SF x) (Prim2SF y)) as [[]|]; congruence.
Qed.

(** ** createCode: the quantity *)

Section CreateCode.
Context `{GoLib}.

(** The request of an authenticated administrator, with a body that decodes
    and a name that is not blank: what the checks before the quantity let
    through. [w1] is the world after the administrator check. *)
Definition admin_request (c : Ctx addPromocodeRequest) (w : World)
    (req : addPromocodeRequest) (w1 : World) : Prop :=
  exists claims : Claims,
    ctx_claims c = Ok claims /\
    isUserAdmin (UserID claims) w = (Ok true, w1) /\
    ctx_body c = Ok req /\
    String.eqb (TrimSpace (req_Name req)) "" = false.

Definition quantity_messages : list string :=
  [ "Invalid quantity"; "Quantity must be greater than zero";
    "Quantity must be a finite number"; "Quantity must be an integer value" ].

(** The response is one of the four rejections of a quantity (HTTP 400). *)
Definition quantity_rejected (r : Response) : bool :=
  (status r =? StatusBadRequest) &&
  match body r !! "error" with
  | Some (JStr message) => existsb (String.eqb message) quantity_messages
  | _ => false
  end.

(** A string literal in double quotes, as it stands in a JSON body. *)
Definition quoted (s : string) : string := String quote (s +:+ String quote "").

Lemma AddPromocode_parse_error c w req w1 err :
  admin_request c w req w1 ->
  parseFlexibleQuantity (req_Quantity req) = Err err ->
  AddPromocode c w = (StatusJSON StatusBadRequest (errorDetails "Invalid quantity" err), w1).
Proof.
  intros (claims & Hc & Ha & Hb & Hn) Hp. unfold AddPromocode, getClaimsFromContext.
  exec. reflexivity.
Qed.

Lemma AddPromocode_not_positive c w req w1 v :
  admin_request c w req w1 ->
  parseFlexibleQuantity (req_Quantity req) = Ok v ->
  PrimFloat.leb v 0 = true ->
  AddPromocode c w =
    (StatusJSON StatusBadRequest (errorBody "Quantity must be greater than zero"), w1).
Proof.
  intros (claims & Hc & Ha & Hb & Hn) Hp Hv. unfold AddPromocode, getClaimsFromContext.
  exec. reflexivity.
Qed.

Lemma AddPromocode_not_finite c w req w1 v :
  admin_request c w req w1 ->
  parseFlexibleQuantity (req_Quantity req) = Ok v ->
  PrimFloat.leb v 0 = false ->
  math_IsNaN v || math_IsInf v = true ->
  AddPromocode c w =
    (StatusJSON StatusBadRequest (errorBody "Quantity must be a finite number"), w1).
Proof.
  intros (claims & Hc & Ha & Hb & Hn) Hp Hv Hf. unfold AddPromocode, getClaimsFromContext.
  exec. reflexivity.
Qed.

Lemma AddPromocode_not_integral c w req w1 v :
  admin_request c w req w1 ->
  parseFlexibleQuantity (req_Quantity req) = Ok v ->
  PrimFloat.leb v 0 = false ->
  math_IsNaN v || math_IsInf v = false ->
  PrimFloat.ltb epsilon (math_Abs (PrimFloat.sub v (math_Round v))) = true ->
  AddPromocode c w =
    (StatusJSON StatusBadRequest (errorBody "Quantity must be an integer value"), w1).
Proof.
  intros (claims & Hc & Ha & Hb & Hn) Hp Hv Hf Hi. unfold AddPromocode, getClaimsFromContext.
  exec. reflexivity.
Qed.

(** A quantity that passes the three tests is rounded and converted, and
    no later step rejects it as a quantity. *)
Lemma AddPromocode_accepted c w req w1 v :
  admin_request c w req w1 ->
  parseFlexibleQuantity (req_Quantity req) = Ok v ->
  PrimFloat.leb v 0 = false ->
  math_IsNaN v || math_IsInf v = false ->
  PrimFloat.ltb epsilon (math_Abs (PrimFloat.sub v (math_Round v))) = false ->
  let r := (AddPromocode c w).1 in
  quantity_rejected r = false /\
  (status r = StatusOK ->
   body r !! "quantity" = Some (JInt (int64_of_float (math_Round v)))).
Proof.
  intros (claims & Hc & Ha & Hb & Hn) Hp H1 H2 H3. unfold AddPromocode, getClaimsFromContext.
  exec.
  all: response_fields; split; [reflexivity|].
  all: first [ intros D; discriminate D | intros _; lookup ].
Qed.

(** Whatever the parsed value, the response is a rejection of the quantity
    exactly when one of the three tests fails. *)
Lemma AddPromocode_quantity_verdict c w req w1 v :
  admin_request c w req w1 ->
  parseFlexibleQuantity (req_Quantity req) = Ok v ->
  quantity_rejected (AddPromocode c w).1 =
    PrimFloat.leb v 0 || (math_IsNaN v || math_IsInf v)
    || PrimFloat.ltb epsilon (math_Abs (PrimFloat.sub v (math_Round v))).
Proof.
  intros Ha Hp.
  destruct (PrimFloat.leb v 0) eqn:H1.
  { now rewrite (AddPromocode_not_positive _ _ _ _ _ Ha Hp H1). }
  destruct (math_IsNaN v || math_IsInf v) eqn:H2.
  { now rewrite (AddPromocode_not_finite _ _ _ _ _ Ha Hp H1 H2). }
  destruct (PrimFloat.ltb epsilon (math_Abs (PrimFloat.sub v (math_Round v)))) eqn:H3.
  { now rewrite (AddPromocode_not_integral _ _ _ _ _ Ha Hp H1 H2 H3). }
  apply (AddPromocode_accepted _ _ _ _ _ Ha Hp H1 H2 H3).
Qed.

Lemma parseFlexibleQuantity_quoted_10 :
  strconv_Unquote (quoted "10") = Ok "10" ->
  strconv_ParseFloat "10" = Ok 10%float ->
  parseFlexibleQuantity (quoted "10") = Ok 10%float.
Proof.
  destruct H as [parse unquote ? ?]. cbn [strconv_Unquote strconv_ParseFloat].
  intros HU HP. unfold parseFlexibleQuantity. cbn [strconv_Unquote strconv_ParseFloat].
  vm_compute in HU. vm_compute. rewrite HU. vm_compute. rewrite HP. reflexivity.
Qed.

Lemma parseFlexibleQuantity_plain (raw : string) (v : float) :
  raw = "10.5" -> strconv_ParseFloat "10.5" = Ok v -> parseFlexibleQuantity raw = Ok v.
Proof.
  destruct H as [parse ? ? ?]. cbn [strconv_ParseFloat].
  intros -> HP. unfold parseFlexibleQuantity. cbn [strconv_ParseFloat].
  vm_compute. rewrite HP. reflexivity.
Qed.

End CreateCode.

(** C6. For a request that reaches the quantity (an authenticated
    administrator, a body that decodes, a name): the string "10" is accepted
    and passed on as the integer 10; 10.5 is rejected as non-integral, and
    so is every value further than 1e-9 from its rounding; 0 and every
    negative value are rejected; NaN and the infinities are rejected; a
    quantity that does not parse is rejected. Every rejection is an HTTP 400
    with one of the four quantity messages. *)
Theorem C6_quantity_validation `{GoLib}
    (c : Ctx addPromocodeRequest) (w w1 : World) (req : addPromocodeRequest) :
  admin_request c w req w1 ->
  let r := (AddPromocode c w).1 in
  let raw := req_Quantity req in
  (raw = quoted "10" ->
   strconv_Unquote (quoted "10") = Ok "10" -> strconv_ParseFloat "10" = Ok 10%float ->
   quantity_rejected r = false /\
   (status r = StatusOK -> body r !! "quantity" = Some (JInt 10))) /\
  (raw = "10.5" -> strconv_ParseFloat "10.5" = Ok 10.5%float ->
   r = StatusJSON StatusBadRequest (errorBody "Quantity must be an integer value")) /\
  (forall v : float, parseFlexibleQuantity raw = Ok v ->
     (PrimFloat.eqb v 0 = true \/ PrimFloat.ltb v 0 = true ->
      r = StatusJSON StatusBadRequest (errorBody "Quantity must be greater than zero")) /\
     (math_IsNaN v = true \/ math_IsInf v = true -> quantity_rejected r = true) /\
     (PrimFloat.ltb epsilon (math_Abs (PrimFloat.sub v (math_Round v))) = true ->
      quantity_rejected r = true)) /\
  (forall err : error, parseFlexibleQuantity raw = Err err ->
     r = StatusJSON StatusBadRequest (errorDetails "Invalid quantity" err)).
Proof.
  intros Ha r raw. subst r raw. split; [|split; [|split]].
  - intros Hraw HU HP.
    pose proof (parseFlexibleQuantity_quoted_10 HU HP) as P. rewrite <- Hraw in P.
    exact (AddPromocode_accepted _ _ _ _ _ Ha P eq_refl eq_refl eq_refl).
  - intros Hraw HP.
    pose proof (parseFlexibleQuantity_plain _ _ Hraw HP) as P.
    now rewrite (AddPromocode_not_integral _ _ _ _ _ Ha P).
  - intros v P. split; [|split].
    + intros Hv.
      assert (PrimFloat.leb v 0 = true) as L
        by (destruct Hv; [now apply float_eqb_leb | now apply float_ltb_leb]).
      now rewrite (AddPromocode_not_positive _ _ _ _ _ Ha P L).
    + intros Hv. rewrite (AddPromocode_quantity_verdict _ _ _ _ _ Ha P).
      destruct Hv as [-> | ->]; now rewrite ?orb_true_r.
    + intros Hv. rewrite (AddPromocode_quantity_verdict _ _ _ _ _ Ha P).
      now rewrite Hv, orb_true_r.
  - intros err P. now rewrite (AddPromocode_parse_error _ _ _ _ _ Ha P).
Qed.

(** An administrator (user 1) creates the code Welcome with the quantity
    given as the string "10". *)
Definition create_welcome : Ctx addPromocodeRequest :=
  Reference.request 1
    (mkAddPromocodeRequest "Welcome" "" (quoted "10") None None None None).

Lemma C6_quantity_validation_witness :
  let w := Reference.world Reference.current_tables 1700000000000000000 in
  admin_request create_welcome w
    (mkAddPromocodeRequest "Welcome" "" (quoted "10") None None None None) w /\
  quantity_rejected (AddPromocode (H := Reference.lib) create_welcome w).1 = false.
Proof.
  intros w.
  assert (admin_request create_welcome w
            (mkAddPromocodeRequest "Welcome" "" (quoted "10") None None None None) w) as A.
  { exists (mkClaims 1). repeat split; reflexivity. }
  split; [exact A|].
  exact (proj1 (proj1 (@C6_quantity_validation Reference.lib _ _ _ _ A)
                      eq_refl eq_refl eq_refl)).
Defined.

(** The same request run to its end: the code is stored with quantity 10. *)
Example create_welcome_runs :
  let r := (AddPromocode (H := Reference.lib) create_welcome
              (Reference.world Reference.current_tables 1700000000000000000)).1 in
  status r = StatusOK /\ body r !! "quantity" = Some (JInt 10) /\
  body r !! "keyword" = Some (JStr "A9A9UD0J").
Proof. vm_compute. repeat split. Qed.

(** ** createCode: the times *)

Section Times.
Context `{GoLib}.









End Times.



(** The times at work: no times given; a start only; an end before the
    start. *)
Example create_welcome_times :
  let run start end_ :=
    (resolvePromocodeTimes (H := Reference.lib) start end_
       (Reference.world Reference.current_tables 1700000000000000000)).1 in
  run None None = Ok (Some 1700000000000000000, Some 1702592000000000000) /\
  run (Some "2030-01-01") None = Ok (Some 1893456000000000000, Some 1896048000000000000) /\
  run (Some "2030-01-01") (Some "2029-01-01T00:00:00Z")
    = Err (Errorf "end time must be after start time") /\
  run (Some "2030-01-01") (Some "2030-01-01")
    = Err (Errorf "end time must be after start time").
Proof. vm_compute. repeat split. Qed.

(** ** Transactions *)

Section Transactions.

(** A statement that changes no table. *)
Definition read_only {A : Type} (q : stmt A) : Prop := forall t, (q t).2 = t.

(** A statement that changes no table when it answers an error. *)
Definition atomic {A : Type} (q : stmt A) : Prop :=
  forall t e t', q t = (Err e, t') -> t' = t.

Lemma read_only_atomic {A : Type} (q : stmt A) : read_only q -> atomic q.
Proof. intros R t e t' E. specialize (R t). rewrite E in R. exact R. Qed.

Lemma select_promocode_read_only keyword : read_only (select_promocode keyword).
Proof. intros t. unfold select_promocode. repeat case_match; reflexivity. Qed.

Lemma select_promocodes_read_only alt keyword : read_only (select_promocodes alt keyword).
Proof. intros t. unfold select_promocodes. repeat case_match; reflexivity. Qed.

Lemma select_activation_read_only p u : read_only (select_activation p u).
Proof. intros t. unfold select_activation. repeat case_match; reflexivity. Qed.

Lemma select_activations_read_only p u : read_only (select_activations p u).
Proof. intros t. unfold select_activations. repeat case_match; reflexivity. Qed.

Lemma select_balance_read_only u : read_only (select_balance u).
Proof. intros t. unfold select_balance. repeat case_match; reflexivity. Qed.

Lemma select_admin_read_only i u : read_only (select_admin i u).
Proof. intros t. reflexivity. Qed.

Lemma insert_activation_atomic p u now q : atomic (insert_activation p u now q).
Proof. intros t e t'. unfold insert_activation. repeat case_match; congruence. Qed.

Lemma insert_activations_atomic p u now : atomic (insert_activations p u now).
Proof. intros t e t'. unfold insert_activations. repeat case_match; congruence. Qed.

(** Nothing that is visible outside a transaction has changed between
    [w0] and [w]. *)
Definition quiet (w0 w : World) : Prop :=
  committed w = committed w0 /\ pending w = pending w0 /\ txlog w = txlog w0.

(** Since [w0] a transaction has begun and is still open in [w]; nothing of
    it is visible. *)
Definition tx_open (w0 w : World) : Prop :=
  committed w = committed w0 /\ is_Some (pending w) /\
  txlog w = (txlog w0 ++ [EvBegin])%list.

(** Since [w0] a transaction has begun and its commit has failed. *)
Definition tx_failed (w0 w : World) : Prop :=
  committed w = committed w0 /\ pending w = None /\
  txlog w = (txlog w0 ++ [EvBegin; EvCommitFailed])%list.

(** Since [w0] a transaction has begun and has been committed. *)
Definition tx_done (w0 w : World) : Prop :=
  pending w = None /\ txlog w = (txlog w0 ++ [EvBegin; EvCommit])%list.

Lemma quiet_refl w : quiet w w.
Proof. repeat split. Qed.

Lemma next_fault_inv w o w' :
  next_fault w = (o, w') ->
  committed w' = committed w /\ pending w' = pending w /\ txlog w' = txlog w /\
  clock w' = clock w /\ ticks w' = ticks w /\ entropy w' = entropy w.
Proof.
  unfold next_fault. destruct (faults w); intros [= <- <-]; repeat split.
Qed.

Lemma DB_QueryRow_inv {A : Type} (q : stmt A) w r w' :
  DB_QueryRow q w = (r, w') ->
  pending w' = pending w /\ txlog w' = txlog w /\
  clock w' = clock w /\ ticks w' = ticks w /\
  ((exists e, r = Err e /\ committed w' = committed w) \/
   (r = (q (committed w)).1 /\ committed w' = (q (committed w)).2)).
Proof.
  unfold DB_QueryRow. rewrite bind_run.
  destruct (next_fault w) as [o w1] eqn:F.
  destruct (next_fault_inv _ _ _ F) as (Hc & Hp & Hl & Hk & Ht & _).
  destruct o as [e|].
  - rewrite ret_run. intros [= <- <-]. repeat split; auto. left. eauto.
  - destruct (q (committed w1)) as [r1 t1] eqn:Q. intros [= <- <-].
    rewrite <- Hc, Q. simpl. repeat split; auto.
Qed.

Lemma DB_QueryRow_quiet {A : Type} (q : stmt A) w0 w r w' :
  read_only q -> quiet w0 w -> DB_QueryRow q w = (r, w') -> quiet w0 w'.
Proof.
  intros R (Hc & Hp & Hl) E.
  destruct (DB_QueryRow_inv _ _ _ _ E) as (Hp' & Hl' & _ & _ & [(e & _ & Hc') | (_ & Hc')]).
  - repeat split; congruence.
  - rewrite R in Hc'. repeat split; congruence.
Qed.

Lemma DB_QueryRow_done {A : Type} (q : stmt A) w0 w r w' :
  tx_done w0 w -> DB_QueryRow q w = (r, w') -> tx_done w0 w'.
Proof.
  intros (Hp & Hl) E.
  destruct (DB_QueryRow_inv _ _ _ _ E) as (Hp' & Hl' & _).
  split; congruence.
Qed.

Lemma time_Now_inv w t w' :
  time_Now w = (t, w') ->
  t = clock w (ticks w) /\ committed w' = committed w /\ pending w' = pending w /\
  txlog w' = txlog w /\ faults w' = faults w.
Proof. unfold time_Now. intros [= <- <-]. repeat split. Qed.

Lemma time_Now_quiet w0 w t w' : quiet w0 w -> time_Now w = (t, w') -> quiet w0 w'.
Proof.
  intros (Hc & Hp & Hl) E. destruct (time_Now_inv _ _ _ E) as (_ & ? & ? & ? & _).
  repeat split; congruence.
Qed.

Lemma time_Now_open w0 w t w' : tx_open w0 w -> time_Now w = (t, w') -> tx_open w0 w'.
Proof.
  intros (Hc & Hp & Hl) E. destruct (time_Now_inv _ _ _ E) as (_ & ? & Hp' & ? & _).
  split; [congruence|]. split; [now rewrite Hp' | congruence].
Qed.

Lemma Begin_inv w0 w r w' :
  quiet w0 w -> Begin w = (r, w') ->
  (exists e, r = Err e /\ quiet w0 w') \/
  (r = Ok TheTx /\ tx_open w0 w' /\ exists w1, next_fault w = (None, w1) /\
     pending w' = Some (committed w)).
Proof.
  intros (Hc & Hp & Hl). unfold Begin. rewrite bind_run.
  destruct (next_fault w) as [o w1] eqn:F.
  destruct (next_fault_inv _ _ _ F) as (Hc' & Hp' & Hl' & _).
  destruct o as [e|].
  - rewrite ret_run. intros [= <- <-]. left. exists e. repeat split; congruence.
  - intros [= <- <-]. right. split; [reflexivity|]. split.
    + repeat split; simpl; try congruence. eauto.
    + exists w1. split; [reflexivity|]. simpl. congruence.
Qed.

Lemma Tx_QueryRow_inv {A : Type} tx (q : stmt A) w r w' :
  Tx_QueryRow tx q w = (r, w') ->
  committed w' = committed w /\ txlog w' = txlog w /\
  clock w' = clock w /\ ticks w' = ticks w /\
  match pending w with
  | None => pending w' = None /\ exists e, r = Err e
  | Some t =>
      (exists e, r = Err e /\ pending w' = Some t) \/
      (r = (q t).1 /\ pending w' = Some (q t).2)
  end.
Proof.
  unfold Tx_QueryRow. rewrite bind_run.
  destruct (next_fault w) as [o w1] eqn:F.
  destruct (next_fault_inv _ _ _ F) as (Hc & Hp & Hl & Hk & Ht & _).
  destruct o as [e|].
  - rewrite ret_run. intros [= <- <-]. repeat split; auto.
    rewrite <- Hp. destruct (pending w1); eauto.
  - rewrite <- Hp. destruct (pending w1) as [t|] eqn:P.
    + destruct (q t) as [r1 t1] eqn:Q. intros [= <- <-].
      split; [exact Hc|]. split; [exact Hl|]. split; [exact Hk|]. split; [exact Ht|].
      right. simpl. auto.
    + intros [= <- <-]. repeat split; eauto.
Qed.

Lemma Tx_Exec_inv tx (q : stmt unit) w o w' :
  Tx_Exec tx q w = (o, w') ->
  committed w' = committed w /\ txlog w' = txlog w /\
  clock w' = clock w /\ ticks w' = ticks w /\
  match pending w with
  | None => pending w' = None /\ exists e, o = Some e
  | Some t =>
      (exists e, o = Some e /\ pending w' = Some t) \/
      (o = match (q t).1 with Ok _ => None | Err e => Some e end /\
       pending w' = Some (q t).2)
  end.
Proof.
  unfold Tx_Exec. rewrite bind_run.
  destruct (Tx_QueryRow tx q w) as [r w1] eqn:E. rewrite ret_run. intros [= <- <-].
  destruct (Tx_QueryRow_inv _ _ _ _ _ E) as (Hc & Hl & Hk & Ht & Hp).
  repeat split; auto. destruct (pending w) as [t|].
  - destruct Hp as [(e & -> & Hp) | (-> & Hp)]; [left | right]; eauto.
  - destruct Hp as (Hp & e & ->). eauto.
Qed.

Lemma Tx_QueryRow_open {A : Type} tx (q : stmt A) w0 w r w' :
  tx_open w0 w -> Tx_QueryRow tx q w = (r, w') -> tx_open w0 w'.
Proof.
  intros (Hc & [t Hp] & Hl) E.
  destruct (Tx_QueryRow_inv _ _ _ _ _ E) as (Hc' & Hl' & _ & _ & Hp').
  rewrite Hp in Hp'. repeat split; try congruence.
  destruct Hp' as [(_ & _ & ->) | (_ & ->)]; eauto.
Qed.

Lemma Tx_Exec_open tx (q : stmt unit) w0 w o w' :
  tx_open w0 w -> Tx_Exec tx q w = (o, w') -> tx_open w0 w'.
Proof.
  intros (Hc & [t Hp] & Hl) E.
  destruct (Tx_Exec_inv _ _ _ _ _ E) as (Hc' & Hl' & _ & _ & Hp').
  rewrite Hp in Hp'. repeat split; try congruence.
  destruct Hp' as [(_ & _ & ->) | (_ & ->)]; eauto.
Qed.

Lemma ensureBalanceRecord_open tx userID w0 w o w' :
  tx_open w0 w -> ensureBalanceRecord tx userID w = (o, w') -> tx_open w0 w'.
Proof.
  intros T. destruct tx as [tx|]; simpl.
  - apply Tx_Exec_open, T.
  - rewrite ret_run. now intros [= <- <-].
Qed.

Lemma Rollback_open tx w0 w o w' :
  tx_open w0 w -> Rollback tx w = (o, w') ->
  o = None /\ committed w' = committed w0 /\ pending w' = None /\
  txlog w' = (txlog w0 ++ [EvBegin; EvRollback])%list.
Proof.
  intros (Hc & [t Hp] & Hl). unfold Rollback. rewrite Hp. intros [= <- <-]. simpl.
  rewrite Hl, <- app_assoc. auto.
Qed.

Lemma Rollback_noop tx w :
  pending w = None -> Rollback tx w = (Some ErrTxDone, log_event EvRollbackNoop w).
Proof. intros Hp. unfold Rollback. now rewrite Hp. Qed.

Lemma Rollback_quiet tx w0 w o w' :
  quiet w0 w -> Rollback tx w = (o, w') ->
  committed w' = committed w0 /\ pending w' = None.
Proof.
  intros (Hc & Hp & Hl). unfold Rollback.
  destruct (pending w) eqn:P; intros [= <- <-]; simpl; auto.
Qed.

Lemma Commit_open tx w0 w o w' :
  tx_open w0 w -> Commit tx w = (o, w') ->
  (exists e, o = Some e /\ tx_failed w0 w') \/
  (o = None /\ tx_done w0 w' /\ pending w = Some (committed w')).
Proof.
  intros (Hc & [t Hp] & Hl). unfold Commit. rewrite Hp.
  destruct (next_fault w) as [f w1] eqn:F.
  destruct (next_fault_inv _ _ _ F) as (Hc' & Hp' & Hl' & _).
  destruct f as [e|]; intros [= <- <-]; simpl.
  - left. exists e. split; [reflexivity|]. repeat split; simpl; try congruence.
    rewrite Hl', Hl, <- app_assoc. reflexivity.
  - right. split; [reflexivity|]. split; [|reflexivity].
    split; simpl; [reflexivity|]. rewrite Hl', Hl, <- app_assoc. reflexivity.
Qed.

Lemma Rollback_failed tx w0 w o w' :
  tx_failed w0 w -> Rollback tx w = (o, w') ->
  committed w' = committed w0 /\ pending w' = None /\
  txlog w' = (txlog w0 ++ [EvBegin; EvCommitFailed; EvRollbackNoop])%list.
Proof.
  intros (Hc & Hp & Hl). rewrite (Rollback_noop _ _ Hp). intros [= <- <-]. simpl.
  rewrite Hl, <- app_assoc. auto.
Qed.

Lemma Rollback_done tx w0 w o w' :
  tx_done w0 w -> Rollback tx w = (o, w') ->
  committed w' = committed w /\ pending w' = None /\
  txlog w' = (txlog w0 ++ [EvBegin; EvCommit; EvRollbackNoop])%list.
Proof.
  intros (Hp & Hl). rewrite (Rollback_noop _ _ Hp). intros [= <- <-]. simpl.
  rewrite Hl, <- app_assoc. auto.
Qed.

Lemma Begin_ok w0 w tx w' : quiet w0 w -> Begin w = (Ok tx, w') -> tx_open w0 w'.
Proof.
  intros Q E. destruct (Begin_inv _ _ _ _ Q E) as [(e & D & _) | (_ & T & _)];
    [discriminate D | exact T].
Qed.

Lemma Begin_err w0 w e w' : quiet w0 w -> Begin w = (Err e, w') -> quiet w0 w'.
Proof.
  intros Q E. destruct (Begin_inv _ _ _ _ Q E) as [(e' & _ & Q') | (D & _)];
    [exact Q' | discriminate D].
Qed.

Lemma Commit_ok tx w0 w w' : tx_open w0 w -> Commit tx w = (None, w') -> tx_done w0 w'.
Proof.
  intros T E. destruct (Commit_open _ _ _ _ _ T E) as [(e & D & _) | (_ & T' & _)];
    [discriminate D | exact T'].
Qed.

Lemma Commit_err tx w0 w e w' :
  tx_open w0 w -> Commit tx w = (Some e, w') -> tx_failed w0 w'.
Proof.
  intros T E. destruct (Commit_open _ _ _ _ _ T E) as [(e' & _ & T') | (D & _)];
    [exact T' | discriminate D].
Qed.

(** *** The balance table inside the transaction *)

(** The balance table as the open transaction sees it. *)
Definition view (w : World) (m : gmap Z float) : Prop :=
  exists t, pending w = Some t /\ balance t = m.

(** A statement that leaves the balance table alone. *)
Definition keeps_balance {A : Type} (q : stmt A) : Prop :=
  forall t, balance (q t).2 = balance t.

Lemma read_only_keeps_balance {A : Type} (q : stmt A) : read_only q -> keeps_balance q.
Proof. intros R t. now rewrite R. Qed.

Lemma insert_activation_keeps_balance p u now q : keeps_balance (insert_activation p u now q).
Proof. intros t. unfold insert_activation. repeat case_match; reflexivity. Qed.

Lemma insert_activations_keeps_balance p u now : keeps_balance (insert_activations p u now).
Proof. intros t. unfold insert_activations. repeat case_match; reflexivity. Qed.

(** The balance table after [ensure]: a row of quantity 0 where none was. *)
Definition ensured (u : Z) (m : gmap Z float) : gmap Z float :=
  match m !! u with
  | Some _ => m
  | None => <[u := 0%float]> m
  end.

(** The balance table after [credit]. *)
Definition credited (amount : float) (u : Z) (m : gmap Z float) : gmap Z float :=
  alter (fun q => PrimFloat.add q amount) u m.

(** The balance of a user on the read path: no row counts as zero. *)
Definition balance_of (u : Z) (m : gmap Z float) : float :=
  match m !! u with
  | Some q => q
  | None => 0%float
  end.



Lemma Begin_view w0 w tx w' :
  quiet w0 w -> Begin w = (Ok tx, w') -> view w' (balance (committed w0)).
Proof.
  intros Q E. destruct (Begin_inv _ _ _ _ Q E) as [(e & D & _) | (_ & _ & w1 & _ & P)].
  - discriminate D.
  - exists (committed w). split; [exact P|]. destruct Q as (-> & _). reflexivity.
Qed.

Lemma Tx_QueryRow_view {A : Type} tx (q : stmt A) w m r w' :
  keeps_balance q -> view w m -> Tx_QueryRow tx q w = (r, w') -> view w' m.
Proof.
  intros K (t & P & <-) E.
  destruct (Tx_QueryRow_inv _ _ _ _ _ E) as (_ & _ & _ & _ & V). rewrite P in V.
  destruct V as [(_ & _ & V) | (_ & V)]; eexists; (split; [exact V|]); auto.
Qed.

Lemma Tx_Exec_view tx (q : stmt unit) w m o w' :
  keeps_balance q -> view w m -> Tx_Exec tx q w = (o, w') -> view w' m.
Proof.
  intros K (t & P & <-) E.
  destruct (Tx_Exec_inv _ _ _ _ _ E) as (_ & _ & _ & _ & V). rewrite P in V.
  destruct V as [(_ & _ & V) | (_ & V)]; eexists; (split; [exact V|]); auto.
Qed.

Lemma time_Now_view w m t w' : view w m -> time_Now w = (t, w') -> view w' m.
Proof.
  intros (t0 & P & <-) E. destruct (time_Now_inv _ _ _ E) as (_ & _ & P' & _).
  exists t0. split; congruence.
Qed.

Lemma ensureBalanceRecord_view tx u w m w' :
  view w m -> ensureBalanceRecord (Some tx) u w = (None, w') -> view w' (ensured u m).
Proof.
  intros (t & P & <-) E. simpl in E.
  destruct (Tx_Exec_inv _ _ _ _ _ E) as (_ & _ & _ & _ & V). rewrite P in V.
  destruct V as [(e & D & _) | (_ & V)]; [discriminate D|].
  eexists. split; [exact V|]. unfold insert_balance, ensured.
  destruct (balance t !! u); reflexivity.
Qed.

Lemma update_balance_view tx amount u w m w' :
  view w m -> Tx_Exec tx (update_balance amount u) w = (None, w') ->
  view w' (credited amount u m).
Proof.
  intros (t & P & <-) E.
  destruct (Tx_Exec_inv _ _ _ _ _ E) as (_ & _ & _ & _ & V). rewrite P in V.
  destruct V as [(e & D & _) | (_ & V)]; [discriminate D|].
  eexists. split; [exact V|]. reflexivity.
Qed.

Lemma Commit_view tx w0 w m w' :
  tx_open w0 w -> view w m -> Commit tx w = (None, w') -> balance (committed w') = m.
Proof.
  intros T (t & P & <-) E.
  destruct (Commit_open _ _ _ _ _ T E) as [(e & D & _) | (_ & _ & V)]; [discriminate D|].
  congruence.
Qed.

Lemma select_balance_inv u w b w' :
  DB_QueryRow (select_balance u) w = (Ok b, w') ->
  balance (committed w) !! u = Some b /\ committed w' = committed w.
Proof.
  intros E. destruct (DB_QueryRow_inv _ _ _ _ E) as (_ & _ & _ & _ & [(e & D & _) | (R & C)]).
  - discriminate D.
  - rewrite select_balance_read_only in C. split; [|exact C].
    unfold select_balance in R. destruct (balance (committed w) !! u); simpl in R; congruence.
Qed.

End Transactions.

(** ** redeem: the transaction *)

Section Redeem.
Context `{GoLib}.

Lemma computePromocodeActive_quiet record w0 w b w' :
  quiet w0 w -> computePromocodeActive record w = (b, w') -> quiet w0 w'.
Proof.
  intros Q. destruct record as [record|].
  - rewrite computePromocodeActive_run. intros [= <- <-]. exact Q.
  - rewrite computePromocodeActive_nil. now intros [= <- <-].
Qed.

(** Follows the world through the steps a handler has taken. *)
Ltac track :=
  repeat match goal with
  | Q : quiet ?w0 ?w, E : DB_QueryRow (select_promocode _) ?w = _ |- _ =>
      learn (DB_QueryRow_quiet _ _ _ _ _ (select_promocode_read_only _) Q E)
  | Q : quiet ?w0 ?w, E : DB_QueryRow (select_promocodes _ _) ?w = _ |- _ =>
      learn (DB_QueryRow_quiet _ _ _ _ _ (select_promocodes_read_only _ _) Q E)
  | Q : quiet ?w0 ?w, E : computePromocodeActive _ ?w = _ |- _ =>
      learn (computePromocodeActive_quiet _ _ _ _ _ Q E)
  | T : tx_open ?w0 ?w, E : Tx_QueryRow _ _ ?w = _ |- _ =>
      learn (Tx_QueryRow_open _ _ _ _ _ _ T E)
  | T : tx_open ?w0 ?w, E : Tx_Exec _ _ ?w = _ |- _ =>
      learn (Tx_Exec_open _ _ _ _ _ _ T E)
  | T : tx_open ?w0 ?w, E : ensureBalanceRecord _ _ ?w = _ |- _ =>
      learn (ensureBalanceRecord_open _ _ _ _ _ _ T E)
  | T : tx_open ?w0 ?w, E : time_Now ?w = _ |- _ =>
      learn (time_Now_open _ _ _ _ T E)
  | T : tx_done ?w0 ?w, E : DB_QueryRow _ ?w = _ |- _ =>
      learn (DB_QueryRow_done _ _ _ _ _ T E)
  end.

Lemma findPromocodeByKeyword_quiet keyword w0 w r w' :
  quiet w0 w -> findPromocodeByKeyword keyword w = (r, w') -> quiet w0 w'.
Proof.
  intros Q. unfold findPromocodeByKeyword. exec.
  all: intros [= <- <-]; track; assumption.
Qed.


(** How a run of [ActivatePromocode] from the world [w0] can end. *)
Inductive outcome (w0 : World) (r : Response) (w' : World) : Prop :=
  | no_transaction :
      quiet w0 w' -> status r <> StatusOK -> outcome w0 r w'
  | rolled_back :
      committed w' = committed w0 -> pending w' = None ->
      txlog w' = (txlog w0 ++ [EvBegin; EvRollback])%list ->
      status r <> StatusOK -> outcome w0 r w'
  | commit_failed :
      committed w' = committed w0 -> pending w' = None ->
      txlog w' = (txlog w0 ++ [EvBegin; EvCommitFailed; EvRollbackNoop])%list ->
      status r = StatusInternalServerError -> outcome w0 r w'
  | committed_then_noop :
      pending w' = None ->
      txlog w' = (txlog w0 ++ [EvBegin; EvCommit; EvRollbackNoop])%list ->
      outcome w0 r w'.

Definition abort_messages : list string :=
  [ "Promocode already activated by this user";
    "Failed to check promocode activation";
    "Failed to check legacy promocode activation";
    "Failed to prepare balance record";
    "Failed to update balance";
    "Failed to record promocode activation" ].

Ltac track_tx :=
  track;
  repeat match goal with
  | Q : quiet ?w0 ?w, E : findPromocodeByKeyword _ ?w = _ |- _ =>
      learn (findPromocodeByKeyword_quiet _ _ _ _ _ Q E)
  | Q : quiet ?w0 ?w, E : Begin ?w = (Ok _, _) |- _ => learn (Begin_ok _ _ _ _ Q E)
  | Q : quiet ?w0 ?w, E : Begin ?w = (Err _, _) |- _ => learn (Begin_err _ _ _ _ Q E)
  | T : tx_open ?w0 ?w, E : Commit _ ?w = (None, _) |- _ => learn (Commit_ok _ _ _ _ T E)
  | T : tx_open ?w0 ?w, E : Commit _ ?w = (Some _, _) |- _ =>
      learn (Commit_err _ _ _ _ _ T E)
  | T : tx_open ?w0 ?w, E : Rollback _ ?w = _ |- _ =>
      destruct (Rollback_open _ _ _ _ _ T E) as (? & ? & ? & ?); clear E
  | T : tx_failed ?w0 ?w, E : Rollback _ ?w = _ |- _ =>
      destruct (Rollback_failed _ _ _ _ _ T E) as (? & ? & ?); clear E
  | T : tx_done ?w0 ?w, E : Rollback _ ?w = _ |- _ =>
      destruct (Rollback_done _ _ _ _ _ T E) as (? & ? & ?); clear E
  | _ => progress track
  end.

Lemma unauthorizedResponse_error (err : error) :
  exists message,
    unauthorizedResponse err = StatusJSON StatusUnauthorized (errorDetails message err) /\
    In message [ "Missing authorization token"; "Invalid token signature";
                 "Token expired"; "Unauthorized" ].
Proof.
  unfold unauthorizedResponse. repeat case_match; eexists; (split; [reflexivity|]);
    simpl; auto.
Qed.

Lemma ActivatePromocode_outcome (c : Ctx activatePromocodeRequest) (w w' : World)
    (r : Response) :
  ActivatePromocode c w = (r, w') ->
  outcome w r w' /\
  (forall message : string,
     body r !! "error" = Some (JStr message) -> In message abort_messages ->
     committed w' = committed w /\ pending w' = None /\
     txlog w' = (txlog w ++ [EvBegin; EvRollback])%list).
Proof.
  pose proof (quiet_refl w) as Q.
  unfold ActivatePromocode, getClaimsFromContext. exec.
  all: intros [= <- <-].
  all: track_tx.
  all: split;
    [ first
        [ apply no_transaction; [assumption | discriminate]
        | apply rolled_back; [assumption | assumption | assumption | discriminate]
        | apply commit_failed; [assumption | assumption | assumption | reflexivity]
        | apply committed_then_noop; assumption ]
    | intros message L M ].
  all: try (repeat split; assumption).
  all: exfalso; revert L; response_fields.
  all: try (intros [= <-]; simpl in M; intuition discriminate).
  destruct (unauthorizedResponse_error e) as (m & -> & Hm). response_fields.
  intros [= <-]. simpl in M, Hm. intuition (subst; discriminate).
Qed.

(** C2. Whatever happens in a run of [ActivatePromocode], it ends in one of
    four ways: no transaction was begun; a transaction was begun and rolled
    back, and the committed tables are as before; the commit failed, the
    committed tables are as before and the deferred rollback had nothing to
    do; or the commit succeeded and the deferred rollback had nothing to
    do. No transaction stays open. A response that reports a prior
    redemption, or a failure of the checks, of the balance record, of the
    credit or of the recording, comes from a run that was rolled back. *)
Theorem C2_rollback_on_failure (c : Ctx activatePromocodeRequest) (w : World) :
  let r := (ActivatePromocode c w).1 in
  let w' := (ActivatePromocode c w).2 in
  outcome w r w' /\
  (forall message : string,
     body r !! "error" = Some (JStr message) -> In message abort_messages ->
     committed w' = committed w /\ pending w' = None /\
     txlog w' = (txlog w ++ [EvBegin; EvRollback])%list).
Proof.
  intros r w'. apply (ActivatePromocode_outcome c). subst r w'.
  now destruct (ActivatePromocode c w).
Qed.




End Redeem.



(** A user without a balance row redeems GOLD on the legacy tables: the
    row is created and credited. *)
Example redeem_gold_creates_row :
  let run := ActivatePromocode (H := Reference.lib)
               (Reference.request 44 (mkActivatePromocodeRequest "GOLD"))
               (Reference.world Reference.legacy_tables 1500) in
  status run.1 = StatusOK /\ body run.1 !! "balance" = Some (JFloat 75%float) /\
  txlog run.2 = [EvBegin; EvCommit; EvRollbackNoop].
Proof. vm_compute. repeat split. Qed.

(** ** ensure *)

(** C10. [ensureBalanceRecord] with a nil transaction answers an error and
    touches nothing. With a transaction in which the user already has a
    balance row, it leaves the tables of the transaction as they are (the
    row and its quantity included) and nothing becomes visible outside;
    unless a failure is imposed on the round trip, it answers no error. *)
Theorem C10_ensureBalanceRecord_safe (userID : Z) (w : World) :
  ensureBalanceRecord None userID w =
    (Some (Errorf "transaction is required to ensure balance record"), w) /\
  (forall (tx : Tx) (t : Tables) (q : float) (o : option error) (w' : World),
     pending w = Some t -> balance t !! userID = Some q ->
     ensureBalanceRecord (Some tx) userID w = (o, w') ->
     pending w' = Some t /\ committed w' = committed w /\
     ((next_fault w).1 = None -> o = None)).
Proof.
  split; [reflexivity|].
  intros tx t q o w' P B E. simpl in E.
  destruct (Tx_Exec_inv _ _ _ _ _ E) as (C & _ & _ & _ & V). rewrite P in V.
  assert (insert_balance userID t = (Ok tt, t)) as I
    by (unfold insert_balance; now rewrite B).
  rewrite I in V. simpl in V. split; [|split; [exact C|]].
  - destruct V as [(_ & _ & V) | (_ & V)]; exact V.
  - intros F. revert E. unfold Tx_Exec, Tx_QueryRow. rewrite !bind_run.
    destruct (next_fault w) as [f w1] eqn:N. simpl in F. subst f.
    destruct (next_fault_inv _ _ _ N) as (_ & P1 & _). rewrite P1, P, I.
    rewrite ret_run. now intros [= <- _].
Qed.

(** [ensure] at work inside a transaction: user 43 has a row, user 50 has
    none. *)
Example ensure_inside_transaction :
  let w := (Begin (Reference.world Reference.current_tables 1500)).2 in
  let seen (u : Z) (w : World) :=
    match pending w with
    | Some t => Some (balance t !! u)
    | None => None
    end in
  (ensureBalanceRecord (Some TheTx) 43 w).1 = None /\
  seen 43 (ensureBalanceRecord (Some TheTx) 43 w).2 = Some (Some 100%float) /\
  seen 50 w = Some None /\
  seen 50 (ensureBalanceRecord (Some TheTx) 50 w).2 = Some (Some 0%float).
Proof. vm_compute. repeat split. Qed.


(** * Further properties of the handlers *)

(** ** The token of a request *)

Section Token.

Lemma cut_at_space_spec (s a b : string) :
  cut_at_space s = Some (a, b) ->
  s = a +:+ String " " b /\ forallb (fun c => negb (Ascii.eqb c " ")) (list_ascii_of_string a) = true.
Proof.
  revert a b. induction s as [|c s IH]; intros a b; simpl; [discriminate|].
  destruct (Ascii.eqb c " ") eqn:E.
  - intros [= <- <-]. apply Ascii.eqb_eq in E as ->. split; reflexivity.
  - destruct (cut_at_space s) as [[a' b']|]; [|discriminate].
    intros [= <- <-]. destruct (IH _ _ eq_refl) as [-> F]. split; [reflexivity|].
    simpl. now rewrite E, F.
Qed.

Lemma cut_at_space_first (a b : string) :
  forallb (fun c => negb (Ascii.eqb c " ")) (list_ascii_of_string a) = true ->
  cut_at_space (a +:+ String " " b) = Some (a, b).
Proof.
  induction a as [|c a IH]; simpl; [reflexivity|].
  intros [E F]%andb_true_iff. apply negb_true_iff in E. rewrite E, (IH F). reflexivity.
Qed.

(** The token of a request, source by source. A well-formed Bearer header
    wins over the other sources and its remainder is trimmed; an error is
    answered only when neither [X-Auth-Token] nor the query carries a token,
    and it is [errMissingToken]; and the only token that can be empty comes
    from a Bearer header whose remainder is white space. *)
Theorem extractTokenFromRequest_sources (c : HttpRequest) :
  (forall scheme rest : string,
     Get c "Authorization" = scheme +:+ String " " rest ->
     forallb (fun ch => negb (Ascii.eqb ch " ")) (list_ascii_of_string scheme) = true ->
     EqualFold scheme "Bearer" = true -> rest <> "" ->
     extractTokenFromRequest c = Ok (TrimSpace rest)) /\
  (forall err : error,
     extractTokenFromRequest c = Err err ->
     err = ErrMissingToken /\ Get c "X-Auth-Token" = "" /\ Query c "token" = "") /\
  (extractTokenFromRequest c = Ok "" ->
   exists scheme rest : string,
     Get c "Authorization" = scheme +:+ String " " rest /\
     EqualFold scheme "Bearer" = true /\ rest <> "" /\ TrimSpace rest = "").
Proof.
  unfold extractTokenFromRequest. cbv zeta. split; [|split].
  - intros scheme rest HA HS HB HR. rewrite HA. unfold SplitN2.
    rewrite (cut_at_space_first _ _ HS), HB.
    destruct (String.eqb_spec rest ""); [contradiction|].
    destruct scheme; reflexivity.
  - intros err.
    assert (forall r : result string,
              r = (if negb (String.eqb (Get c "X-Auth-Token") "") then Ok (Get c "X-Auth-Token")
                   else if negb (String.eqb (Query c "token") "") then Ok (Query c "token")
                   else Err ErrMissingToken) ->
              r = Err err ->
              err = ErrMissingToken /\ Get c "X-Auth-Token" = "" /\ Query c "token" = "") as O.
    { intros r ->. destruct (String.eqb_spec (Get c "X-Auth-Token") ""); simpl; [|discriminate].
      destruct (String.eqb_spec (Query c "token") ""); simpl; [|discriminate].
      now intros [= <-]. }
    repeat case_match; try discriminate; intros E; eapply O; eauto.
  - assert (forall r : result string,
              r = (if negb (String.eqb (Get c "X-Auth-Token") "") then Ok (Get c "X-Auth-Token")
                   else if negb (String.eqb (Query c "token") "") then Ok (Query c "token")
                   else Err ErrMissingToken) ->
              r <> Ok "") as O.
    { intros r ->. destruct (String.eqb_spec (Get c "X-Auth-Token") ""); simpl.
      - destruct (String.eqb_spec (Query c "token") ""); simpl; congruence.
      - congruence. }
    unfold SplitN2.
    destruct (negb (String.eqb (Get c "Authorization") "")) eqn:NA;
      [|intros E; now apply O in E].
    destruct (cut_at_space (Get c "Authorization")) as [[scheme rest]|] eqn:C;
      [|intros E; now apply O in E].
    destruct (EqualFold scheme "Bearer") eqn:HB; simpl; [|intros E; now apply O in E].
    destruct (String.eqb_spec rest ""); simpl; [intros E; now apply O in E|].
    intros [= T]. apply cut_at_space_spec in C as [HA _].
    exists scheme, rest. auto.
Qed.

End Token.

(** ** Parsing the inputs of createCode *)

Section Inputs.
Context `{GoLib}.

(** A keyword that is generated has the length asked for, consists of
    upper-case letters and digits only, and has used exactly that many
    bytes of entropy; a length that is not positive is refused before any
    entropy is read. *)
Theorem generatePromocodeKeyword_keyword (length : Z) (w w' : World) (keyword : string) :
  generatePromocodeKeyword length w = (Ok keyword, w') ->
  0 < length /\
  String.length keyword = Z.to_nat length /\
  forallb uppercase_alnum (list_ascii_of_string keyword) = true /\
  entropy w' = drop (Z.to_nat length) (entropy w).
Proof.
  intros G. destruct (generatePromocodeKeyword_spec _ _ _ _ G) as (L & N & A).
  repeat split; auto.
  revert G. unfold generatePromocodeKeyword. destruct (length <=? 0); [discriminate|].
  rewrite bind_run. unfold rand_Read.
  destruct (Z.to_nat length <=? List.length (entropy w))%nat; [|discriminate].
  now intros [= _ <-].
Qed.

Lemma generatePromocodeKeyword_not_positive (length : Z) (w : World) :
  length <= 0 -> generatePromocodeKeyword length w = (Err (Errorf "length must be positive"), w).
Proof.
  intros L. unfold generatePromocodeKeyword.
  destruct (length <=? 0) eqn:E; [reflexivity | lia].
Qed.

(** What [parseFlexibleQuantity] answers is what [strconv.ParseFloat]
    answers for a text that is not empty; its errors are the missing
    quantity, or the error of the library wrapped. *)
Theorem parseFlexibleQuantity_result (raw : string) :
  match parseFlexibleQuantity raw with
  | Ok value =>
      exists text : string, text <> "" /\ strconv_ParseFloat text = Ok value
  | Err err =>
      err = Errorf "quantity is required" \/
      exists inner : error, err = Wrap "invalid quantity" inner
  end.
Proof.
  unfold parseFlexibleQuantity. cbv zeta.
  destruct (String.length raw =? 0)%nat; [now left|].
  destruct (String.eqb_spec (TrimSpace raw) ""); simpl; [now left|].
  destruct (EqualFold (TrimSpace raw) "null"); [now left|].
  destruct (TrimSpace raw) as [|c rest] eqn:T; [contradiction|].
  destruct (Ascii.eqb c quote).
  - destruct (strconv_Unquote (String c rest)) as [unquoted|err]; [|right; eauto].
    destruct (String.eqb_spec (TrimSpace unquoted) ""); [now left|].
    destruct (strconv_ParseFloat (TrimSpace unquoted)) eqn:P; [eauto | right; eauto].
  - destruct (strconv_ParseFloat (String c rest)) eqn:P; [|right; eauto].
    exists (String c rest). split; [discriminate | exact P].
Qed.

(** A quantity that is absent, blank or the JSON null is reported as
    missing, whatever the library would make of it. *)
Lemma parseFlexibleQuantity_required (raw : string) :
  raw = "" \/ TrimSpace raw = "" \/ EqualFold (TrimSpace raw) "null" = true ->
  parseFlexibleQuantity raw = Err (Errorf "quantity is required").
Proof.
  unfold parseFlexibleQuantity. cbv zeta. intros [-> | [E | E]]; [reflexivity | |].
  - destruct (String.length raw =? 0)%nat; [reflexivity|]. now rewrite E.
  - destruct (String.length raw =? 0)%nat; [reflexivity|]. rewrite E.
    now rewrite orb_true_r.
Qed.

Lemma parseTimeInput_from_spec (ls : list string) (value trimmed : string) :
  match parseTimeInput_from ls value trimmed with
  | Ok t =>
      exists (before after : list string) (layout : string),
        ls = (before ++ layout :: after)%list /\ time_Parse layout trimmed = Ok t /\
        Forall (fun l => exists e, time_Parse l trimmed = Err e) before
  | Err err =>
      err = Errorf ("unsupported time format: " +:+ value) /\
      Forall (fun l => exists e, time_Parse l trimmed = Err e) ls
  end.
Proof.
  induction ls as [|layout ls IH]; simpl; [split; [reflexivity | constructor]|].
  destruct (time_Parse layout trimmed) as [t|e] eqn:P.
  - exists [], ls, layout. repeat split; auto.
  - destruct (parseTimeInput_from ls value trimmed) as [t|err].
    + destruct IH as (before & after & l & -> & Q & F).
      exists (layout :: before), after, l. repeat split; auto. constructor; eauto.
    + destruct IH as [-> F]. split; [reflexivity|]. constructor; eauto.
Qed.

(** [parseTimeInput] answers what the first layout that parses the trimmed
    value says, the six layouts being tried in their order; when none
    parses it, the error names the value as it was given. *)
Theorem parseTimeInput_first_layout (value : string) :
  match parseTimeInput value with
  | Ok t =>
      exists (before after : list string) (layout : string),
        layouts = (before ++ layout :: after)%list /\
        time_Parse layout (TrimSpace value) = Ok t /\
        Forall (fun l => exists e, time_Parse l (TrimSpace value) = Err e) before
  | Err err =>
      err = Errorf ("unsupported time format: " +:+ value) /\
      Forall (fun l => exists e, time_Parse l (TrimSpace value) = Err e) layouts
  end.
Proof. apply parseTimeInput_from_spec. Qed.

(** Times that resolve are both set, and the end is strictly after the
    start. *)
Theorem resolvePromocodeTimes_ordered (start end_ : option string) (w w' : World)
    (s e : option Time) :
  resolvePromocodeTimes start end_ w = (Ok (s, e), w') ->
  exists s' e' : Time, s = Some s' /\ e = Some e' /\ s' < e'.
Proof.
  unfold resolvePromocodeTimes, time_Now. rewrite bind_run, ret_run. cbv zeta.
  intros [= R _]. revert R. unfold After. repeat case_match; intros; simplify_eq.
  all: eexists _, _; repeat split; lia.
Qed.

End Inputs.

(** Eight characters drawn for the first request of the reference world. *)
Lemma generatePromocodeKeyword_keyword_witness :
  let run := generatePromocodeKeyword 8
               (Reference.world Reference.current_tables 1700000000000000000) in
  run.1 = Ok "A9A9UD0J" /\
  entropy run.2 =
    drop 8 (entropy (Reference.world Reference.current_tables 1700000000000000000)).
Proof.
  intros run.
  assert (run.1 = Ok "A9A9UD0J") as K by (vm_compute; reflexivity).
  assert (generatePromocodeKeyword 8
            (Reference.world Reference.current_tables 1700000000000000000)
          = (Ok "A9A9UD0J", run.2)) as G
    by (rewrite <- K; subst run; now destruct (generatePromocodeKeyword _ _)).
  destruct (generatePromocodeKeyword_keyword 8 _ _ _ G) as (_ & _ & _ & E).
  exact (conj K E).
Defined.

(** A start on 1 January 2030 and no end. *)
Lemma resolvePromocodeTimes_ordered_witness :
  let run := resolvePromocodeTimes (H := Reference.lib) (Some "2030-01-01") None
               (Reference.world Reference.current_tables 1700000000000000000) in
  exists s e : Time, run.1 = Ok (Some s, Some e) /\ s < e.
Proof.
  intros run.
  assert (run.1 = Ok (Some 1893456000000000000, Some 1896048000000000000)) as K
    by (vm_compute; reflexivity).
  assert (resolvePromocodeTimes (H := Reference.lib) (Some "2030-01-01") None
            (Reference.world Reference.current_tables 1700000000000000000)
          = (Ok (Some 1893456000000000000, Some 1896048000000000000), run.2)) as R
    by (rewrite <- K; subst run; now destruct (resolvePromocodeTimes _ _ _)).
  destruct (@resolvePromocodeTimes_ordered Reference.lib _ _ _ _ _ _ R)
    as (s & e & Hs & He & L).
  injection Hs as <-. injection He as <-.
  exists 1893456000000000000, 1896048000000000000. exact (conj K L).
Defined.

(** ** Round trips that no failure is imposed on *)

Section NoFault.

Lemma set_committed_same (w : World) : set_committed (committed w) w = w.
Proof. now destruct w. Qed.

Lemma set_pending_same (w : World) : set_pending (pending w) w = w.
Proof. now destruct w. Qed.

Lemma next_fault_none (w : World) : faults w = [] -> next_fault w = (None, w).
Proof. intros F. unfold next_fault. now rewrite F. Qed.

Lemma DB_QueryRow_no_fault {A : Type} (q : stmt A) (w : World) :
  faults w = [] ->
  DB_QueryRow q w = ((q (committed w)).1, set_committed (q (committed w)).2 w).
Proof.
  intros F. unfold DB_QueryRow. rewrite bind_run, (next_fault_none _ F).
  now destruct (q (committed w)).
Qed.

Lemma DB_QueryRow_read (A : Type) (q : stmt A) (w : World) :
  faults w = [] -> read_only q -> DB_QueryRow q w = ((q (committed w)).1, w).
Proof.
  intros F R. rewrite (DB_QueryRow_no_fault _ _ F), R. now rewrite set_committed_same.
Qed.

Lemma DB_Exec_no_fault (q : stmt unit) (w : World) :
  faults w = [] ->
  DB_Exec q w = (match (q (committed w)).1 with Ok _ => None | Err e => Some e end,
                 set_committed (q (committed w)).2 w).
Proof.
  intros F. unfold DB_Exec. rewrite bind_run, (DB_QueryRow_no_fault _ _ F). reflexivity.
Qed.

Lemma Tx_QueryRow_no_fault {A : Type} (tx : Tx) (q : stmt A) (w : World) (t : Tables) :
  faults w = [] -> pending w = Some t ->
  Tx_QueryRow tx q w = ((q t).1, set_pending (Some (q t).2) w).
Proof.
  intros F P. unfold Tx_QueryRow. rewrite bind_run, (next_fault_none _ F), P.
  now destruct (q t).
Qed.

Lemma Tx_Exec_no_fault (tx : Tx) (q : stmt unit) (w : World) (t : Tables) :
  faults w = [] -> pending w = Some t ->
  Tx_Exec tx q w = (match (q t).1 with Ok _ => None | Err e => Some e end,
                    set_pending (Some (q t).2) w).
Proof.
  intros F P. unfold Tx_Exec. rewrite bind_run, (Tx_QueryRow_no_fault _ _ _ _ F P).
  reflexivity.
Qed.


Lemma Commit_no_fault (tx : Tx) (w : World) (t : Tables) :
  faults w = [] -> pending w = Some t ->
  Commit tx w = (None, log_event EvCommit (set_committed t (set_pending None w))).
Proof. intros F P. unfold Commit. now rewrite P, (next_fault_none _ F). Qed.

End NoFault.

(** ** The administrator check *)

Section Admin.

(** An answer that makes [isUserAdmin] go on to its next query: a table or
    a column the query names does not exist. *)
Definition schema_mismatch (answer : result bool) : Prop :=
  exists code msg : string,
    answer = Err (PqError code msg) /\ (code = "42703" \/ code = "42P01").

(** What [isUserAdmin] makes of the answer it stops at: no row means no
    administrator. *)
Definition admin_decision (answer : result bool) : result bool :=
  match answer with
  | Ok isAdmin => Ok isAdmin
  | Err err => if errors_Is err SNoRows then Ok false else Err err
  end.

Lemma isUserAdmin_from_decisive (before after : list nat) (query : nat) (userID : Z) (w : World) :
  faults w = [] ->
  Forall (fun i => schema_mismatch (admin_answers (committed w) i userID)) before ->
  ~ schema_mismatch (admin_answers (committed w) query userID) ->
  isUserAdmin_from (before ++ query :: after) userID w =
    (admin_decision (admin_answers (committed w) query userID), w).
Proof.
  intros F B D. induction B as [|i before (code & msg & E & C) _ IH]; simpl.
  - rewrite bind_run, (DB_QueryRow_read _ _ _ F (select_admin_read_only _ _)).
    simpl. destruct (admin_answers (committed w) query userID) as [b|err] eqn:A;
      [reflexivity|].
    simpl. destruct (errors_Is err SNoRows); [reflexivity|].
    destruct err; simpl; try reflexivity.
    destruct (String.eqb_spec code "42703") as [->|]; simpl.
    { exfalso. apply D. do 2 eexists. eauto. }
    destruct (String.eqb_spec code "42P01") as [->|]; simpl; [|reflexivity].
    exfalso. apply D. do 2 eexists. eauto.
  - rewrite bind_run, (DB_QueryRow_read _ _ _ F (select_admin_read_only _ _)).
    simpl. rewrite E. simpl. destruct C as [-> | ->]; simpl; exact IH.
Qed.

Lemma isUserAdmin_from_undetermined (queries : list nat) (userID : Z) (w : World) :
  faults w = [] ->
  Forall (fun i => schema_mismatch (admin_answers (committed w) i userID)) queries ->
  isUserAdmin_from queries userID w =
    (Err (Errorf ("could not determine admin status for user " +:+ pretty userID)), w).
Proof.
  intros F B. induction B as [|i queries (code & msg & E & C) _ IH]; simpl; [reflexivity|].
  rewrite bind_run, (DB_QueryRow_read _ _ _ F (select_admin_read_only _ _)).
  simpl. rewrite E. simpl. destruct C as [-> | ->]; simpl; exact IH.
Qed.

(** [isUserAdmin] asks its four queries in order and stops at the first
    whose answer is not a schema mismatch: a row decides, no row means no
    administrator, any other error is passed on. When all four mismatch,
    it answers an error that names the user. *)
Theorem isUserAdmin_first_decisive (userID : Z) (w : World) :
  faults w = [] ->
  (forall (before after : list nat) (query : nat),
     adminQueries = (before ++ query :: after)%list ->
     Forall (fun i => schema_mismatch (admin_answers (committed w) i userID)) before ->
     ~ schema_mismatch (admin_answers (committed w) query userID) ->
     isUserAdmin userID w = (admin_decision (admin_answers (committed w) query userID), w)) /\
  (Forall (fun i => schema_mismatch (admin_answers (committed w) i userID)) adminQueries ->
   isUserAdmin userID w =
     (Err (Errorf ("could not determine admin status for user " +:+ pretty userID)), w)).
Proof.
  intros F. split.
  - intros before after query Q B D. unfold isUserAdmin. rewrite Q.
    now apply isUserAdmin_from_decisive.
  - intros B. now apply isUserAdmin_from_undetermined.
Qed.

End Admin.

(** A store whose [users] table has no [is_admin] column and whose second
    query finds no row for the user. *)
Definition role_tables : Tables :=
  mkTables (Some []) None (Some []) None ∅
    (fun i user =>
       if (i =? 0)%nat then Err (PqError "42703" "column is_admin does not exist")
       else Err ErrNoRows).

Lemma isUserAdmin_first_decisive_witness :
  isUserAdmin 7 (Reference.world role_tables 0) = (Ok false, Reference.world role_tables 0).
Proof.
  refine (proj1 (isUserAdmin_first_decisive 7 (Reference.world role_tables 0) eq_refl)
                [0%nat] [2%nat; 3%nat] 1%nat eq_refl _ _).
  - constructor; [|constructor]. do 2 eexists. split; [reflexivity | now left].
  - intros (code & msg & E & _). discriminate E.
Defined.

(** ** Reading a balance *)

Section ReadBalance.

(** Without failures, [GetBalance] answers 200 with the stored quantity, or
    with 0 when the user has no row, which it then creates; nothing else
    of the store changes, and a second read answers the same balance. *)
Theorem GetBalance_read (c : Ctx unit) (claims : Claims) (w w' : World) (r : Response) :
  faults w = [] -> ctx_claims c = Ok claims ->
  GetBalance c w = (r, w') ->
  let user := UserID claims in
  status r = StatusOK /\
  body r !! "balance" =
    Some (match balance (committed w) !! user with
          | Some q => JFloat q
          | None => JInt 0
          end) /\
  committed w' = set_balance (ensured user (balance (committed w))) (committed w) /\
  pending w' = pending w /\ txlog w' = txlog w /\
  forall (r2 : Response) (w2 : World),
    GetBalance c w' = (r2, w2) ->
    body r2 !! "balance" = Some (JFloat (balance_of user (balance (committed w)))) /\
    committed w2 = committed w'.
Proof.
  intros F C. cbv zeta.
  assert (forall w0 q, faults w0 = [] -> balance (committed w0) !! UserID claims = Some q ->
            GetBalance c w0 = (JSON {[ "balance" := JFloat q ]}, w0)) as Found.
  { intros w0 q F0 B. unfold GetBalance, getClaimsFromContext. rewrite C, bind_run.
    rewrite (DB_QueryRow_read _ _ _ F0 (select_balance_read_only _)).
    unfold select_balance. now rewrite B. }
  assert (set_balance (balance (committed w)) (committed w) = committed w) as Same
    by now destruct (committed w).
  unfold ensured, balance_of.
  destruct (balance (committed w) !! UserID claims) as [q|] eqn:B.
  - rewrite (Found w q F B). intros [= <- <-]. rewrite Same.
    do 5 (split; [reflexivity|]).
    intros r2 w2. rewrite (Found w q F B). now intros [= <- <-].
  - unfold GetBalance at 1, getClaimsFromContext. rewrite C, bind_run.
    rewrite (DB_QueryRow_read _ _ _ F (select_balance_read_only _)).
    unfold select_balance at 1. rewrite B. cbn [fst errors_Is]. rewrite bind_run.
    rewrite (DB_Exec_no_fault _ _ F). unfold insert_balance. rewrite B. cbn [fst snd].
    intros [= <- <-]. do 5 (split; [reflexivity|]).
    intros r2 w2. rewrite (Found _ 0%float); [now intros [= <- <-]| exact F |].
    cbn. apply lookup_insert_eq.
Qed.

End ReadBalance.

Lemma GetBalance_read_witness :
  let c : Ctx unit := Reference.request 50 tt in
  let w := Reference.world Reference.current_tables 1500 in
  body (GetBalance c w).1 !! "balance" = Some (JInt 0) /\
  balance (committed (GetBalance c w).2) !! 50 = Some 0%float.
Proof.
  intros c w.
  assert (GetBalance c w = ((GetBalance c w).1, (GetBalance c w).2)) as E
    by now destruct (GetBalance c w).
  destruct (GetBalance_read c (mkClaims 50) w _ _ eq_refl eq_refl E)
    as (_ & B & C & _).
  split; [exact B|]. rewrite C. reflexivity.
Defined.

(** ** A keyword that no code carries *)

Section NotFound.
Context `{GoLib}.

(** The current table, if it exists, has no code of this keyword. *)
Definition absent_from_current (keyword : string) (t : Tables) : Prop :=
  match promocode t with
  | Some rows => List.find (fun r => String.eqb (pr_keyword r) keyword) rows = None
  | None => True
  end.

Lemma select_promocode_absent (keyword : string) (t : Tables) :
  absent_from_current keyword t ->
  (select_promocode keyword t).1 = Err ErrNoRows \/
  (select_promocode keyword t).1 = Err (undefined_table "promocode").
Proof.
  unfold absent_from_current, select_promocode.
  destruct (promocode t); [intros ->; now left | now right].
Qed.

(** Without failures, a keyword that no code carries is reported by
    [findPromocodeByKeyword] as [sql.ErrNoRows], and by [ActivatePromocode]
    as 404, when the legacy table exists (with the column names of one of
    its two variants); when the legacy table does not exist the report is
    the error "promocodes table not found", and [ActivatePromocode] answers
    500, also when the current table exists and simply has no such code. *)
Theorem findPromocodeByKeyword_absent (keyword : string) (w : World) :
  faults w = [] ->
  absent_from_current keyword (committed w) ->
  (forall (layout : legacyLayout) (rows : list legacyPromocode),
     promocodes (committed w) = Some (layout, rows) ->
     has_promocode_id layout = has_is_active layout ->
     List.find (fun r => String.eqb (lp_keyword r) keyword) rows = None ->
     findPromocodeByKeyword keyword w = (Err ErrNoRows, w)) /\
  (promocodes (committed w) = None ->
   findPromocodeByKeyword keyword w = (Err (Errorf "promocodes table not found"), w)) /\
  (forall (c : Ctx activatePromocodeRequest) (claims : Claims)
          (req : activatePromocodeRequest),
     ctx_claims c = Ok claims -> ctx_body c = Ok req ->
     TrimSpace (req_Promocode req) = keyword -> keyword <> "" ->
     forall err : error,
       findPromocodeByKeyword keyword w = (Err err, w) ->
       ActivatePromocode c w =
         (if errors_Is err SNoRows
          then StatusJSON StatusNotFound (errorBody "Promocode not found")
          else StatusJSON StatusInternalServerError
                 (errorDetails "Failed to fetch promocode" err), w)).
Proof.
  intros F A.
  assert (forall alt, DB_QueryRow (select_promocodes alt keyword) w =
                        ((select_promocodes alt keyword (committed w)).1, w)) as L
    by (intros alt; apply DB_QueryRow_read; [exact F | apply select_promocodes_read_only]).
  assert (DB_QueryRow (select_promocode keyword) w =
            ((select_promocode keyword (committed w)).1, w)) as C
    by (apply DB_QueryRow_read; [exact F | apply select_promocode_read_only]).
  split; [|split].
  - intros layout rows P U N. unfold findPromocodeByKeyword. cbv zeta. run. rewrite C.
    assert (forall alt, has_promocode_id layout = negb alt ->
              (select_promocodes alt keyword (committed w)).1 = Err ErrNoRows) as Right.
    { intros alt I. unfold select_promocodes. rewrite P, <- U, I, N.
      now destruct alt. }
    assert (has_promocode_id layout = false ->
              (select_promocodes false keyword (committed w)).1
              = Err (undefined_column "promocode_id")) as Wrong.
    { intros I. unfold select_promocodes. now rewrite P, I. }
    destruct (select_promocode_absent _ _ A) as [-> | ->];
      cbn; rewrite (L false);
      (destruct (has_promocode_id layout) eqn:I;
       [ rewrite (Right false eq_refl); reflexivity
       | rewrite (Wrong eq_refl); cbn; rewrite (L true), (Right true eq_refl); reflexivity ]).
  - intros P. unfold findPromocodeByKeyword. cbv zeta. run. rewrite C.
    destruct (select_promocode_absent _ _ A) as [-> | ->]; cbn;
      rewrite (L false); unfold select_promocodes; rewrite P; reflexivity.
  - intros c claims req Hc Hb <- Hk err E.
    unfold ActivatePromocode, getClaimsFromContext. rewrite Hc, Hb. cbv zeta.
    destruct (String.eqb_spec (TrimSpace (req_Promocode req)) ""); [contradiction|].
    rewrite bind_run, E. destruct (errors_Is err SNoRows); reflexivity.
Qed.

End NotFound.

(** The keyword NOPE on a store that has the current tables only. *)
Lemma findPromocodeByKeyword_absent_witness :
  ActivatePromocode (H := Reference.lib)
    (Reference.request 44 (mkActivatePromocodeRequest "NOPE"))
    (Reference.world Reference.current_tables 1500)
  = (StatusJSON StatusInternalServerError
       (errorDetails "Failed to fetch promocode" (Errorf "promocodes table not found")),
     Reference.world Reference.current_tables 1500).
Proof.
  pose proof (@findPromocodeByKeyword_absent Reference.lib "NOPE"
                (Reference.world Reference.current_tables 1500) eq_refl eq_refl)
    as (_ & Missing & Answer).
  exact (Answer (Reference.request 44 (mkActivatePromocodeRequest "NOPE")) (mkClaims 44)
           (mkActivatePromocodeRequest "NOPE") eq_refl eq_refl eq_refl
           ltac:(discriminate) _ (Missing eq_refl)).
Defined.

(** ** redeem: what a redemption leaves behind *)

Section Recorded.
Context `{GoLib}.

(** The open transaction sees tables for which [P] holds. *)
Definition tx_holds (P : Tables -> Prop) (w : World) : Prop :=
  exists t, pending w = Some t /\ P t.

(** A statement after which [P] still holds. *)
Definition preserves {A : Type} (q : stmt A) (P : Tables -> Prop) : Prop :=
  forall t, P t -> P (q t).2.

(** The tables of the codes are those of [t0]. *)
Definition same_codes (t0 t : Tables) : Prop :=
  promocode t = promocode t0 /\ promocodes t = promocodes t0.

(** The check of [promocode_activation], or that of [promocode_activations],
    finds the user's redemption of the code. *)
Definition activated (promocode_id user_id : Z) (t : Tables) : Prop :=
  (select_activation promocode_id user_id t).1 = Ok 1 \/
  (select_activations promocode_id user_id t).1 = Ok 1.

Lemma read_only_preserves {A : Type} (q : stmt A) (P : Tables -> Prop) :
  read_only q -> preserves q P.
Proof. intros R t. now rewrite R. Qed.

Lemma insert_balance_same_codes u t0 : preserves (insert_balance u) (same_codes t0).
Proof. intros t. unfold insert_balance. now destruct (balance t !! u). Qed.

Lemma update_balance_same_codes a u t0 : preserves (update_balance a u) (same_codes t0).
Proof. intros t. now unfold update_balance. Qed.

Lemma insert_activation_same_codes p u now q t0 :
  preserves (insert_activation p u now q) (same_codes t0).
Proof. intros t. unfold insert_activation. repeat case_match; auto. Qed.

Lemma insert_activations_same_codes p u now t0 :
  preserves (insert_activations p u now) (same_codes t0).
Proof. intros t. unfold insert_activations. repeat case_match; auto. Qed.

Lemma existsb_snoc {A : Type} (f : A -> bool) (l : list A) (x : A) :
  f x = true -> existsb f (l ++ [x]) = true.
Proof. intros F. rewrite existsb_app. simpl. rewrite F. now rewrite !orb_true_r. Qed.

Lemma insert_activation_activated p u now q t :
  (insert_activation p u now q t).1 = Ok tt ->
  activated p u (insert_activation p u now q t).2.
Proof.
  unfold insert_activation, activated, select_activation.
  destruct (promocode_activation t) as [rows|]; [|discriminate].
  destruct (existsb _ rows); [discriminate|]. intros _. left. simpl.
  rewrite existsb_snoc; [reflexivity|]. simpl. now rewrite !Z.eqb_refl.
Qed.

Lemma insert_activations_activated p u now t :
  (insert_activations p u now t).1 = Ok tt ->
  activated p u (insert_activations p u now t).2.
Proof.
  unfold insert_activations, activated, select_activations.
  destruct (promocode_activations t) as [rows|]; [|discriminate].
  destruct (existsb _ rows); [discriminate|]. intros _. right. simpl.
  rewrite existsb_snoc; [reflexivity|]. simpl. now rewrite !Z.eqb_refl.
Qed.

Lemma Begin_holds w0 w tx w' :
  quiet w0 w -> Begin w = (Ok tx, w') -> tx_holds (same_codes (committed w0)) w'.
Proof.
  intros Q E. destruct (Begin_inv _ _ _ _ Q E) as [(e & D & _) | (_ & _ & w1 & _ & P)].
  - discriminate D.
  - exists (committed w). split; [exact P|]. destruct Q as (-> & _). now split.
Qed.

Lemma Tx_QueryRow_holds {A : Type} tx (q : stmt A) P w r w' :
  preserves q P -> tx_holds P w -> Tx_QueryRow tx q w = (r, w') -> tx_holds P w'.
Proof.
  intros K (t & Pt & Ht) E.
  destruct (Tx_QueryRow_inv _ _ _ _ _ E) as (_ & _ & _ & _ & V). rewrite Pt in V.
  destruct V as [(_ & _ & V) | (_ & V)]; eexists; (split; [exact V|]); auto.
Qed.

Lemma Tx_Exec_holds tx (q : stmt unit) P w o w' :
  preserves q P -> tx_holds P w -> Tx_Exec tx q w = (o, w') -> tx_holds P w'.
Proof.
  intros K (t & Pt & Ht) E.
  destruct (Tx_Exec_inv _ _ _ _ _ E) as (_ & _ & _ & _ & V). rewrite Pt in V.
  destruct V as [(_ & _ & V) | (_ & V)]; eexists; (split; [exact V|]); auto.
Qed.

(** A statement of the transaction that answers no error has been run. *)
Lemma Tx_Exec_ran tx (q : stmt unit) P w w' :
  tx_holds P w -> Tx_Exec tx q w = (None, w') ->
  exists t, P t /\ (q t).1 = Ok tt /\ pending w' = Some (q t).2.
Proof.
  intros (t & Pt & Ht) E.
  destruct (Tx_Exec_inv _ _ _ _ _ E) as (_ & _ & _ & _ & V). rewrite Pt in V.
  destruct V as [(e & D & _) | (O & V)]; [discriminate D|].
  exists t. split; [exact Ht|]. split; [|exact V].
  destruct (q t).1 as [[]|]; [reflexivity | discriminate O].
Qed.

Lemma time_Now_holds P w t w' : tx_holds P w -> time_Now w = (t, w') -> tx_holds P w'.
Proof.
  intros (t0 & Pt & Ht) E. destruct (time_Now_inv _ _ _ E) as (_ & _ & P' & _).
  exists t0. split; congruence.
Qed.

Lemma ensureBalanceRecord_holds tx u t0 w o w' :
  tx_holds (same_codes t0) w -> ensureBalanceRecord (Some tx) u w = (o, w') ->
  tx_holds (same_codes t0) w'.
Proof. apply Tx_Exec_holds, insert_balance_same_codes. Qed.

Lemma insert_activation_holds tx p u now q t0 w w' :
  tx_holds (same_codes t0) w -> Tx_Exec tx (insert_activation p u now q) w = (None, w') ->
  tx_holds (fun t => same_codes t0 t /\ activated p u t) w'.
Proof.
  intros T E. destruct (Tx_Exec_ran _ _ _ _ _ T E) as (t & S & R & P).
  eexists. split; [exact P|]. split.
  - now apply insert_activation_same_codes.
  - now apply insert_activation_activated.
Qed.

Lemma insert_activations_holds tx p u now t0 w w' :
  tx_holds (same_codes t0) w -> Tx_Exec tx (insert_activations p u now) w = (None, w') ->
  tx_holds (fun t => same_codes t0 t /\ activated p u t) w'.
Proof.
  intros T E. destruct (Tx_Exec_ran _ _ _ _ _ T E) as (t & S & R & P).
  eexists. split; [exact P|]. split.
  - now apply insert_activations_same_codes.
  - now apply insert_activations_activated.
Qed.

Lemma Commit_holds tx P w0 w w' :
  tx_open w0 w -> tx_holds P w -> Commit tx w = (None, w') -> P (committed w').
Proof.
  intros T (t & Pt & Ht) E.
  destruct (Commit_open _ _ _ _ _ T E) as [(e & D & _) | (_ & _ & V)]; [discriminate D|].
  congruence.
Qed.

End Recorded.

(** Follows the world and the tables of the transaction through the steps a
    run of [ActivatePromocode] has taken. *)
Ltac follow :=
  repeat match goal with
  | Q : quiet ?w0 ?w, E : findPromocodeByKeyword _ ?w = _ |- _ =>
      learn (findPromocodeByKeyword_quiet _ _ _ _ _ Q E)
  | Q : quiet ?w0 ?w, E : Begin ?w = (Ok _, _) |- _ => learn (Begin_ok _ _ _ _ Q E)
  | Q : quiet ?w0 ?w, E : Begin ?w = (Ok _, _) |- _ => learn (Begin_holds _ _ _ _ Q E)
  | T : tx_open ?w0 ?w, E : Tx_QueryRow _ _ ?w = _ |- _ =>
      learn (Tx_QueryRow_open _ _ _ _ _ _ T E)
  | T : tx_open ?w0 ?w, E : Tx_Exec _ _ ?w = _ |- _ =>
      learn (Tx_Exec_open _ _ _ _ _ _ T E)
  | T : tx_open ?w0 ?w, E : ensureBalanceRecord _ _ ?w = _ |- _ =>
      learn (ensureBalanceRecord_open _ _ _ _ _ _ T E)
  | T : tx_open ?w0 ?w, E : time_Now ?w = _ |- _ =>
      learn (time_Now_open _ _ _ _ T E)
  | T : tx_open ?w0 ?w, E : Commit _ ?w = (None, _) |- _ => learn (Commit_ok _ _ _ _ T E)
  | T : tx_done ?w0 ?w, E : DB_QueryRow _ ?w = _ |- _ =>
      learn (DB_QueryRow_done _ _ _ _ _ T E)
  | V : tx_holds _ ?w, E : Tx_QueryRow _ (select_activation _ _) ?w = _ |- _ =>
      learn (Tx_QueryRow_holds _ _ _ _ _ _
               (read_only_preserves _ _ (select_activation_read_only _ _)) V E)
  | V : tx_holds _ ?w, E : Tx_QueryRow _ (select_activations _ _) ?w = _ |- _ =>
      learn (Tx_QueryRow_holds _ _ _ _ _ _
               (read_only_preserves _ _ (select_activations_read_only _ _)) V E)
  | V : tx_holds _ ?w, E : ensureBalanceRecord (Some _) _ ?w = _ |- _ =>
      learn (ensureBalanceRecord_holds _ _ _ _ _ _ V E)
  | V : tx_holds _ ?w, E : Tx_Exec _ (update_balance _ _) ?w = _ |- _ =>
      learn (Tx_Exec_holds _ _ _ _ _ _ (update_balance_same_codes _ _ _) V E)
  | V : tx_holds _ ?w, E : time_Now ?w = _ |- _ => learn (time_Now_holds _ _ _ _ V E)
  | V : tx_holds _ ?w, E : Tx_Exec _ (insert_activation _ _ _ _) ?w = (None, _) |- _ =>
      learn (insert_activation_holds _ _ _ _ _ _ _ _ V E)
  | V : tx_holds _ ?w, E : Tx_Exec _ (insert_activation _ _ _ _) ?w = (Some _, _) |- _ =>
      learn (Tx_Exec_holds _ _ _ _ _ _ (insert_activation_same_codes _ _ _ _ _) V E)
  | V : tx_holds _ ?w, E : Tx_Exec _ (insert_activations _ _ _) ?w = (None, _) |- _ =>
      learn (insert_activations_holds _ _ _ _ _ _ _ V E)
  | T : tx_open _ ?w, V : tx_holds _ ?w, E : Commit _ ?w = (None, _) |- _ =>
      learn (Commit_holds _ _ _ _ _ T V E)
  | E : DB_QueryRow (select_balance _) _ = (Ok _, _) |- _ =>
      learn (select_balance_inv _ _ _ _ E)
  | T : tx_done ?w0 ?w, E : Rollback _ ?w = _ |- _ =>
      destruct (Rollback_done _ _ _ _ _ T E) as (? & ? & ?); clear E
  end.

(** A redemption that answers 200 was of a code that was found and active;
    when it ends the user's redemption of the code is in the committed
    tables, where the check of a later call looks for it, and the tables of
    the codes are as they were. *)
Theorem ActivatePromocode_recorded `{GoLib} (c : Ctx activatePromocodeRequest)
    (w w' : World) (r : Response) :
  ActivatePromocode c w = (r, w') ->
  status r = StatusOK ->
  exists (claims : Claims) (req : activatePromocodeRequest) (record : promocodeRecord)
         (w1 : World),
    ctx_claims c = Ok claims /\ ctx_body c = Ok req /\
    findPromocodeByKeyword (TrimSpace (req_Promocode req)) w = (Ok record, w1) /\
    IsActive record = true /\
    activated (ID record) (UserID claims) (committed w') /\
    same_codes (committed w) (committed w').
Proof.
  pose proof (quiet_refl w) as Q.
  unfold ActivatePromocode, getClaimsFromContext. exec.
  all: intros [= <- <-] S; try discriminate S.
  all: try (destruct (unauthorizedResponse_error e) as (m & R & _); rewrite R in S;
            discriminate S).
  all: follow.
  all: do 4 eexists; (split; [reflexivity|]); (split; [reflexivity|]);
    (split; [eassumption|]); (split; [assumption|]).
  all: cbv beta in *; repeat match goal with H : _ /\ _ |- _ => destruct H end.
  all: match goal with
       | C1 : committed ?w9 = committed ?wc,
         C2 : committed ?w10 = committed ?w9,
         A : activated _ _ (committed ?wc) |- _ => rewrite C2, C1; split; assumption
       end.
Qed.

(** The user 44 redeems WELCOME on the current tables. *)
Lemma ActivatePromocode_recorded_witness :
  let run := ActivatePromocode (H := Reference.lib)
               (Reference.request 44 (mkActivatePromocodeRequest "WELCOME"))
               (Reference.world Reference.current_tables 1500) in
  status run.1 = StatusOK /\
  exists record : promocodeRecord,
    activated (ID record) 44 (committed run.2) /\
    same_codes Reference.current_tables (committed run.2).
Proof.
  intros run.
  assert (ActivatePromocode (H := Reference.lib)
            (Reference.request 44 (mkActivatePromocodeRequest "WELCOME"))
            (Reference.world Reference.current_tables 1500) = (run.1, run.2)) as E
    by (subst run; now destruct (ActivatePromocode _ _)).
  assert (status run.1 = StatusOK) as S by (vm_compute; reflexivity).
  destruct (@ActivatePromocode_recorded Reference.lib _ _ _ _ E S)
    as (claims & req & record & w1 & Hc & _ & _ & _ & A & C).
  injection Hc as <-. split; [exact S|]. exists record. exact (conj A C).
Defined.

(** ** redeem: a second redemption *)

Section Already.
Context `{GoLib}.



End Already.


(** ** createCode: what a call changes *)

Section Created.
Context `{GoLib}.

(** The tables [t'] are the tables [t] with one more code, of a keyword
    that no code of its table had: a row of [promocode], or a row of the
    legacy [promocodes]. *)
Definition added_code (keyword : string) (t t' : Tables) : Prop :=
  (exists (rows : list promocodeRow) (row : promocodeRow),
     promocode t = Some rows /\
     existsb (fun r => String.eqb (pr_keyword r) keyword) rows = false /\
     pr_keyword row = keyword /\
     t' = set_promocode (Some (rows ++ [row])%list) t) \/
  (exists (layout : legacyLayout) (rows : list legacyPromocode) (row : legacyPromocode),
     promocodes t = Some (layout, rows) /\
     existsb (fun r => String.eqb (lp_keyword r) keyword) rows = false /\
     lp_keyword row = keyword /\
     t' = set_promocodes (Some (layout, (rows ++ [row])%list)) t).

(** Since [w0] the code of this keyword has been added, outside any
    transaction. *)
Definition stored (keyword : string) (w0 w : World) : Prop :=
  pending w = pending w0 /\ txlog w = txlog w0 /\
  added_code keyword (committed w0) (committed w).

Lemma insert_promocode_added name keyword start end_ quantity t t' :
  insert_promocode name keyword start end_ quantity t = (Ok tt, t') ->
  added_code keyword t t'.
Proof.
  unfold insert_promocode. destruct (promocode t) as [rows|] eqn:P; [|discriminate].
  destruct (existsb _ rows) eqn:E; [discriminate|]. intros [= <-].
  left. do 2 eexists. split; [exact P | split; [exact E | split; [| reflexivity]]]. reflexivity.
Qed.

Lemma insert_promocodes_added created_at keyword quantity is_active t t' :
  insert_promocodes created_at keyword quantity is_active t = (Ok tt, t') ->
  added_code keyword t t'.
Proof.
  unfold insert_promocodes. destruct (promocodes t) as [[layout rows]|] eqn:P; [|discriminate].
  destruct (negb (has_is_active layout)); [discriminate|].
  destruct (created_at && negb (has_created_at layout)); [discriminate|].
  destruct (existsb _ rows) eqn:E; [discriminate|]. intros [= <-].
  right. do 3 eexists. split; [exact P | split; [exact E | split; [| reflexivity]]]. reflexivity.
Qed.

Lemma insert_promocode_atomic name keyword start end_ quantity :
  atomic (insert_promocode name keyword start end_ quantity).
Proof. intros t e t'. unfold insert_promocode. repeat case_match; congruence. Qed.

Lemma insert_promocodes_atomic created_at keyword quantity is_active :
  atomic (insert_promocodes created_at keyword quantity is_active).
Proof. intros t e t'. unfold insert_promocodes. repeat case_match; congruence. Qed.

Lemma DB_Exec_failed (q : stmt unit) w0 w e w' :
  atomic q -> quiet w0 w -> DB_Exec q w = (Some e, w') -> quiet w0 w'.
Proof.
  intros A (Hc & Hp & Hl). unfold DB_Exec. rewrite bind_run.
  destruct (DB_QueryRow q w) as [r w1] eqn:E. rewrite ret_run.
  destruct (DB_QueryRow_inv _ _ _ _ E) as (Hp' & Hl' & _ & _ & [(e' & _ & Hc') | (R & Hc')]).
  - intros [= _ <-]. repeat split; congruence.
  - destruct (q (committed w)) as [[[]|e'] t'] eqn:Q; simpl in R, Hc'; subst r;
      simpl; intros [= ? <-].
    apply A in Q. repeat split; congruence.
Qed.

Lemma DB_Exec_done (q : stmt unit) w0 w w' :
  quiet w0 w -> DB_Exec q w = (None, w') ->
  pending w' = pending w0 /\ txlog w' = txlog w0 /\
  q (committed w0) = (Ok tt, committed w').
Proof.
  intros (Hc & Hp & Hl). unfold DB_Exec. rewrite bind_run.
  destruct (DB_QueryRow q w) as [r w1] eqn:E. rewrite ret_run.
  destruct (DB_QueryRow_inv _ _ _ _ E) as (Hp' & Hl' & _ & _ & [(e' & -> & Hc') | (R & Hc')]).
  - discriminate.
  - rewrite Hc in R, Hc'.
    destruct (q (committed w0)) as [[[]|e'] t'] eqn:Q; simpl in R, Hc'; subst r;
      simpl; intros [= <-].
    repeat split; congruence.
Qed.

Lemma insert_promocode_stored name keyword start end_ quantity w0 w w' :
  quiet w0 w -> DB_Exec (insert_promocode name keyword start end_ quantity) w = (None, w') ->
  stored keyword w0 w'.
Proof.
  intros Q E. destruct (DB_Exec_done _ _ _ _ Q E) as (Hp & Hl & I).
  repeat split; auto. eapply insert_promocode_added, I.
Qed.

Lemma insert_promocodes_stored created_at keyword quantity is_active w0 w w' :
  quiet w0 w ->
  DB_Exec (insert_promocodes created_at keyword quantity is_active) w = (None, w') ->
  stored keyword w0 w'.
Proof.
  intros Q E. destruct (DB_Exec_done _ _ _ _ Q E) as (Hp & Hl & I).
  repeat split; auto. eapply insert_promocodes_added, I.
Qed.

Lemma computePromocodeActive_stored keyword record w0 w b w' :
  stored keyword w0 w -> computePromocodeActive record w = (b, w') -> stored keyword w0 w'.
Proof.
  intros S. destruct record as [record|].
  - rewrite computePromocodeActive_run. intros [= <- <-]. exact S.
  - rewrite computePromocodeActive_nil. now intros [= <- <-].
Qed.

Lemma isUserAdmin_from_quiet queries userID w0 w r w' :
  quiet w0 w -> isUserAdmin_from queries userID w = (r, w') -> quiet w0 w'.
Proof.
  revert w. induction queries as [|i queries IH]; intros w Q; simpl.
  - now intros [= <- <-].
  - rewrite bind_run. destruct (DB_QueryRow (select_admin i userID) w) as [a w1] eqn:E.
    pose proof (DB_QueryRow_quiet _ _ _ _ _ (select_admin_read_only _ _) Q E) as Q1.
    repeat case_match; try (now intros [= <- <-]); now apply IH.
Qed.

Lemma isUserAdmin_quiet userID w0 w r w' :
  quiet w0 w -> isUserAdmin userID w = (r, w') -> quiet w0 w'.
Proof. apply isUserAdmin_from_quiet. Qed.

Lemma generatePromocodeKeyword_quiet length w0 w r w' :
  quiet w0 w -> generatePromocodeKeyword length w = (r, w') -> quiet w0 w'.
Proof.
  intros Q. unfold generatePromocodeKeyword, rand_Read. run.
  repeat case_match; simplify_eq; intros [= <- <-]; exact Q.
Qed.

Lemma resolvePromocodeTimes_quiet start end_ w0 w r w' :
  quiet w0 w -> resolvePromocodeTimes start end_ w = (r, w') -> quiet w0 w'.
Proof.
  intros Q. unfold resolvePromocodeTimes, time_Now. rewrite bind_run, ret_run.
  intros [= _ <-]. exact Q.
Qed.

End Created.

(** Follows the world through the steps a run of [AddPromocode] has taken. *)
Ltac follow_create :=
  repeat match goal with
  | Q : quiet ?w0 ?w, E : isUserAdmin _ ?w = _ |- _ =>
      learn (isUserAdmin_quiet _ _ _ _ _ Q E)
  | Q : quiet ?w0 ?w, E : generatePromocodeKeyword _ ?w = _ |- _ =>
      learn (generatePromocodeKeyword_quiet _ _ _ _ _ Q E)
  | Q : quiet ?w0 ?w, E : mret _ ?w = (_, ?w') |- _ =>
      injection E as ? ?; subst w'
  | Q : quiet ?w0 ?w, E : resolvePromocodeTimes _ _ ?w = _ |- _ =>
      learn (resolvePromocodeTimes_quiet _ _ _ _ _ _ Q E)
  | Q : quiet ?w0 ?w, E : DB_Exec (insert_promocode _ _ _ _ _) ?w = (Some _, _) |- _ =>
      learn (DB_Exec_failed _ _ _ _ _ (insert_promocode_atomic _ _ _ _ _) Q E)
  | Q : quiet ?w0 ?w, E : DB_Exec (insert_promocodes _ _ _ _) ?w = (Some _, _) |- _ =>
      learn (DB_Exec_failed _ _ _ _ _ (insert_promocodes_atomic _ _ _ _) Q E)
  | Q : quiet ?w0 ?w, E : DB_Exec (insert_promocode _ _ _ _ _) ?w = (None, _) |- _ =>
      learn (insert_promocode_stored _ _ _ _ _ _ _ _ Q E)
  | Q : quiet ?w0 ?w, E : DB_Exec (insert_promocodes _ _ _ _) ?w = (None, _) |- _ =>
      learn (insert_promocodes_stored _ _ _ _ _ _ _ Q E)
  | S : stored _ ?w0 ?w, E : computePromocodeActive _ ?w = _ |- _ =>
      learn (computePromocodeActive_stored _ _ _ _ _ _ S E)
  end.

Section CreatedCode.
Context `{GoLib}.

Lemma AddPromocode_change (c : Ctx addPromocodeRequest) (w w' : World) (r : Response) :
  AddPromocode c w = (r, w') ->
  (status r <> StatusOK /\ quiet w w') \/
  (status r = StatusOK /\
   exists keyword : string,
     body r !! "keyword" = Some (JStr keyword) /\ stored keyword w w').
Proof.
  pose proof (quiet_refl w) as Q.
  unfold AddPromocode, getClaimsFromContext. exec.
  all: intros [= <- <-]; follow_create.
  all: lazymatch goal with
       | |- (status (unauthorizedResponse ?e) <> _ /\ _) \/ _ =>
           left; split; [|assumption];
           destruct (unauthorizedResponse_error e) as (m & -> & _); discriminate
       | |- (status (StatusJSON _ _) <> _ /\ _) \/ _ =>
           left; split; [discriminate | assumption]
       | |- _ \/ (status (JSON _) = _ /\ _) =>
           right; split; [reflexivity|]; eexists; split; [|eassumption];
           cbn [body JSON]; repeat case_match; lookup
       end.
Qed.

(** [AddPromocode] works outside any transaction. A call that does not
    answer 200 leaves the committed tables as they were; a call that
    answers 200 has added exactly one code, to [promocode] or to the legacy
    [promocodes], under the keyword it answers, which no code of that table
    had; no other table has changed. *)
Theorem AddPromocode_adds_one_code (c : Ctx addPromocodeRequest) (w : World) :
  let r := (AddPromocode c w).1 in
  let w' := (AddPromocode c w).2 in
  pending w' = pending w /\ txlog w' = txlog w /\
  (status r <> StatusOK -> committed w' = committed w) /\
  (status r = StatusOK ->
   exists keyword : string,
     body r !! "keyword" = Some (JStr keyword) /\
     added_code keyword (committed w) (committed w')).
Proof.
  intros r w'.
  assert (AddPromocode c w = (r, w')) as E by (subst r w'; now destruct (AddPromocode c w)).
  destruct (AddPromocode_change _ _ _ _ E) as [(N & Hc & Hp & Hl) | (S & keyword & B & Hp & Hl & A)].
  - repeat split; auto. intros S. contradiction.
  - repeat split; auto; [intros N; contradiction | eauto].
Qed.

End CreatedCode.

(** An administrator creates the code Welcome of quantity 10 without a
    keyword: the keyword A9A9UD0J is generated and the code is added. *)
Lemma AddPromocode_adds_one_code_witness :
  let run := AddPromocode (H := Reference.lib)
               (Reference.request 1
                  (mkAddPromocodeRequest "Welcome" "" "10" None None None None))
               (Reference.world Reference.current_tables 1700000000000000000) in
  body run.1 !! "keyword" = Some (JStr "A9A9UD0J") /\
  added_code "A9A9UD0J" Reference.current_tables (committed run.2).
Proof.
  intros run.
  assert (status run.1 = StatusOK) as S by (vm_compute; reflexivity).
  assert (body run.1 !! "keyword" = Some (JStr "A9A9UD0J")) as K by (vm_compute; reflexivity).
  destruct (proj2 (proj2 (proj2 (@AddPromocode_adds_one_code Reference.lib
              (Reference.request 1
                 (mkAddPromocodeRequest "Welcome" "" "10" None None None None))
              (Reference.world Reference.current_tables 1700000000000000000)))) S)
    as (keyword & B & A).
  fold run in B. rewrite K in B. injection B as <-. exact (conj K A).
Defined.

(** ** The redemptions of a user *)

Section Listed.
Context `{GoLib}.

(** The item that the loop makes of a row: the row's fields, with its
    quantity normalised. *)
Definition item_of (row : activationJoin) (item : promocodeActivationResponse) : Prop :=
  item_PromocodeID item = aj_promocode_id row /\ item_Keyword item = aj_keyword row /\
  normalizeQuantity (aj_quantity row) = Ok (item_Quantity item) /\
  item_ActivatedAt item = aj_activated row /\
  item_StartTime item = aj_start_time row /\ item_EndTime item = aj_end_time row.

Lemma collectActivations_items (rows : list activationJoin)
    (results out : list promocodeActivationResponse) :
  collectActivations rows results = Ok out ->
  exists items, out = (results ++ items)%list /\ Forall2 item_of rows items.
Proof.
  revert results. induction rows as [|row rows IH]; intros results; simpl.
  - intros [= <-]. exists []. split; [now rewrite app_nil_r | constructor].
  - destruct (normalizeQuantity (aj_quantity row)) as [q|] eqn:N; [|discriminate].
    intros E. destruct (IH _ E) as (items & -> & F).
    eexists (_ :: items). split; [now rewrite <- app_assoc|].
    constructor; [|exact F]. repeat split; auto.
Qed.

(** The rows of one of the three joins, read from the committed tables. *)
Definition joined (userID : Z) (t : Tables) (rows : list activationJoin) : Prop :=
  (select_user_activation userID t).1 = Ok rows \/
  exists alt : bool, (select_user_activations alt userID t).1 = Ok rows.

Lemma select_user_activation_read_only u : read_only (select_user_activation u).
Proof. intros t. unfold select_user_activation. repeat case_match; reflexivity. Qed.

Lemma select_user_activations_read_only alt u : read_only (select_user_activations alt u).
Proof. intros t. unfold select_user_activations. repeat case_match; reflexivity. Qed.

Lemma DB_Query_rows {A : Type} (q : stmt A) w0 w rows w' :
  read_only q -> quiet w0 w -> DB_Query q w = (Ok rows, w') ->
  (q (committed w0)).1 = Ok rows.
Proof.
  intros R (Hc & _) E. unfold DB_Query in E.
  destruct (DB_QueryRow_inv _ _ _ _ E) as (_ & _ & _ & _ & [(e & D & _) | (Q & _)]).
  - discriminate D.
  - now rewrite <- Hc, <- Q.
Qed.

Lemma Rows_read_quiet w0 w o w' : quiet w0 w -> Rows_read w = (o, w') -> quiet w0 w'.
Proof.
  intros (Hc & Hp & Hl) E. destruct (next_fault_inv _ _ _ E) as (? & ? & ? & _).
  repeat split; congruence.
Qed.

End Listed.

(** Follows the world through the steps a run of [GetPastPromocodes] has
    taken. *)
Ltac follow_list :=
  repeat match goal with
  | Q : quiet ?w0 ?w, E : DB_Query (select_user_activation _) ?w = (Ok _, _) |- _ =>
      learn (DB_Query_rows _ _ _ _ _ (select_user_activation_read_only _) Q E)
  | Q : quiet ?w0 ?w, E : DB_Query (select_user_activations _ _) ?w = (Ok _, _) |- _ =>
      learn (DB_Query_rows _ _ _ _ _ (select_user_activations_read_only _ _) Q E)
  | Q : quiet ?w0 ?w, E : DB_Query (select_user_activation _) ?w = _ |- _ =>
      learn (DB_QueryRow_quiet _ _ _ _ _ (select_user_activation_read_only _) Q E)
  | Q : quiet ?w0 ?w, E : DB_Query (select_user_activations _ _) ?w = _ |- _ =>
      learn (DB_QueryRow_quiet _ _ _ _ _ (select_user_activations_read_only _ _) Q E)
  | Q : quiet ?w0 ?w, E : Rows_read ?w = _ |- _ => learn (Rows_read_quiet _ _ _ _ Q E)
  end.

Section ListedItems.
Context `{GoLib}.

Lemma fetchPromocodeActivations_items (userID : Z) (w w' : World)
    (r : fetchError + list promocodeActivationResponse) :
  fetchPromocodeActivations userID w = (r, w') ->
  quiet w w' /\
  match r with
  | inr items =>
      exists rows, joined userID (committed w) rows /\ Forall2 item_of rows items
  | inl err => err <> LegacyPromocodeSchema
  end.
Proof.
  pose proof (quiet_refl w) as Q.
  unfold fetchPromocodeActivations, fetchPromocodeActivationsNew,
    fetchPromocodeActivationsLegacy.
  exec.
  all: intros [= <- <-]; follow_list.
  all: split; [assumption|]; try discriminate.
  all: match goal with
       | C : collectActivations ?rows [] = Ok _ |- _ =>
           destruct (collectActivations_items _ _ _ C) as (items & -> & F);
           exists rows; split; [|exact F]
       end.
  all: first [ left; assumption | right; eexists; eassumption ].
Qed.

(** [GetPastPromocodes] changes nothing in the store. What it lists are the
    rows of one of its three joins over the committed tables, one item per
    row and in the order of the rows, each with the row's fields and its
    quantity normalised; no row is left out. *)
Theorem GetPastPromocodes_lists_rows (c : Ctx unit) (w : World) :
  let w' := (GetPastPromocodes c w).2 in
  committed w' = committed w /\ pending w' = pending w /\ txlog w' = txlog w /\
  match (GetPastPromocodes c w).1 with
  | Activations items =>
      exists (claims : Claims) (rows : list activationJoin),
        ctx_claims c = Ok claims /\
        joined (UserID claims) (committed w) rows /\ Forall2 item_of rows items
  | NoActivations response => status response <> StatusOK
  end.
Proof.
  intros w'. subst w'. unfold GetPastPromocodes, getClaimsFromContext.
  destruct (ctx_claims c) as [claims|err] eqn:C.
  - rewrite bind_run.
    destruct (fetchPromocodeActivations (UserID claims) w) as [r w1] eqn:E.
    destruct (fetchPromocodeActivations_items _ _ _ _ E) as ((Hc & Hp & Hl) & R).
    destruct r as [err|items]; simpl; (split; [exact Hc|]; split; [exact Hp|];
      split; [exact Hl|]).
    + discriminate.
    + destruct R as (rows & J & F). eauto.
  - rewrite ret_run. cbn [fst snd]. do 3 (split; [reflexivity|]).
    destruct (unauthorizedResponse_error err) as (m & -> & _). discriminate.
Qed.

End ListedItems.

(** The user 43 has redeemed WELCOME. *)
Example past_promocodes_of_43 :
  (GetPastPromocodes (H := Reference.lib) (Reference.request 43 tt)
     (Reference.world Reference.current_tables 1500)).1
  = Activations [ mkPromocodeActivationResponse 1 "WELCOME" 100%float (Some 500) None None ].
Proof. vm_compute. reflexivity. Qed.

(** ** redeem: the response that hides a commit *)

(** Follows the world through a run of [ActivatePromocode] that has not
    committed, and the balance table of its transaction. *)
Ltac follow_abort :=
  repeat match goal with
  | Q : quiet ?w0 ?w, E : Begin ?w = (Err _, _) |- _ => learn (Begin_err _ _ _ _ Q E)
  | T : tx_open ?w0 ?w, E : Commit _ ?w = (Some _, _) |- _ =>
      learn (Commit_err _ _ _ _ _ T E)
  | T : tx_open ?w0 ?w, E : Rollback _ ?w = _ |- _ =>
      destruct (Rollback_open _ _ _ _ _ T E) as (? & ? & ? & ?); clear E
  | T : tx_failed ?w0 ?w, E : Rollback _ ?w = _ |- _ =>
      destruct (Rollback_failed _ _ _ _ _ T E) as (? & ? & ?); clear E
  end.

Ltac follow_balance :=
  repeat match goal with
  | Q : quiet ?w0 ?w, E : Begin ?w = (Ok _, _) |- _ => learn (Begin_view _ _ _ _ Q E)
  | V : view ?w _, E : Tx_QueryRow _ (select_activation _ _) ?w = _ |- _ =>
      learn (Tx_QueryRow_view _ _ _ _ _ _
               (read_only_keeps_balance _ (select_activation_read_only _ _)) V E)
  | V : view ?w _, E : Tx_QueryRow _ (select_activations _ _) ?w = _ |- _ =>
      learn (Tx_QueryRow_view _ _ _ _ _ _
               (read_only_keeps_balance _ (select_activations_read_only _ _)) V E)
  | V : view ?w _, E : ensureBalanceRecord (Some _) _ ?w = (None, _) |- _ =>
      learn (ensureBalanceRecord_view _ _ _ _ _ V E)
  | V : view ?w _, E : Tx_Exec _ (update_balance _ _) ?w = (None, _) |- _ =>
      learn (update_balance_view _ _ _ _ _ _ V E)
  | V : view ?w _, E : time_Now ?w = _ |- _ => learn (time_Now_view _ _ _ _ V E)
  | V : view ?w _, E : Tx_Exec _ (insert_activation _ _ _ _) ?w = _ |- _ =>
      learn (Tx_Exec_view _ _ _ _ _ _ (insert_activation_keeps_balance _ _ _ _) V E)
  | V : view ?w _, E : Tx_Exec _ (insert_activations _ _ _) ?w = _ |- _ =>
      learn (Tx_Exec_view _ _ _ _ _ _ (insert_activations_keeps_balance _ _ _) V E)
  | T : tx_open _ ?w, V : view ?w _, E : Commit _ ?w = (None, _) |- _ =>
      learn (Commit_view _ _ _ _ _ T V E)
  end.

Section Hidden.
Context `{GoLib}.

Definition read_back_failed : string := "Failed to fetch updated balance".

Lemma select_balance_failed u w e w' :
  DB_QueryRow (select_balance u) w = (Err e, w') -> committed w' = committed w.
Proof.
  intros E.
  destruct (DB_QueryRow_inv _ _ _ _ E) as (_ & _ & _ & _ & [(e' & _ & C) | (_ & C)]).
  - exact C.
  - now rewrite select_balance_read_only in C.
Qed.

(** What a run that answered the failure of the read-back has done. *)
Definition committed_unseen (c : Ctx activatePromocodeRequest) (w w' : World) : Prop :=
  exists (claims : Claims) (req : activatePromocodeRequest) (record : promocodeRecord)
         (w1 : World),
    ctx_claims c = Ok claims /\ ctx_body c = Ok req /\
    findPromocodeByKeyword (TrimSpace (req_Promocode req)) w = (Ok record, w1) /\
    txlog w' = (txlog w ++ [EvBegin; EvCommit; EvRollbackNoop])%list /\
    activated (ID record) (UserID claims) (committed w') /\
    balance (committed w') =
      credited (Quantity record) (UserID claims)
        (ensured (UserID claims) (balance (committed w))).

Lemma ActivatePromocode_change (c : Ctx activatePromocodeRequest) (w w' : World)
    (r : Response) :
  ActivatePromocode c w = (r, w') ->
  (status r = StatusOK /\ body r !! "error" = None) \/
  (exists message : string,
     body r !! "error" = Some (JStr message) /\
     ((message <> read_back_failed /\ committed w' = committed w) \/
      (message = read_back_failed /\ committed_unseen c w w'))).
Proof.
  pose proof (quiet_refl w) as Q.
  unfold ActivatePromocode, getClaimsFromContext. exec.
  all: intros [= <- <-]; follow; follow_abort; follow_balance.
  all: cbv beta in *; repeat match goal with H : _ /\ _ |- _ => destruct H end.
  all: lazymatch goal with
       | |- (status (JSON _) = _ /\ _) \/ _ => left; split; [reflexivity | cbn [body JSON]; lookup]
       | |- _ \/ (exists _, body (unauthorizedResponse ?e) !! _ = _ /\ _) =>
           right; destruct (unauthorizedResponse_error e) as (m & -> & Hm);
           exists m; split; [response_fields; reflexivity|]; left;
           split; [intros ->; simpl in Hm; intuition discriminate|]
       | |- _ \/ (exists _, body (StatusJSON _ (errorDetails "Failed to fetch updated balance" _)) !! _ = _ /\ _) =>
           right; exists read_back_failed; split; [response_fields; reflexivity|]; right;
           split; [reflexivity|]
       | |- _ \/ (exists _, body (StatusJSON _ (errorBody ?m)) !! _ = _ /\ _) =>
           right; exists m; split; [response_fields; reflexivity|]; left;
           split; [discriminate|]
       | |- _ \/ (exists _, body (StatusJSON _ (errorDetails ?m _)) !! _ = _ /\ _) =>
           right; exists m; split; [response_fields; reflexivity|]; left;
           split; [discriminate|]
       end.
  all: try match goal with
           | Q : quiet _ ?w |- committed ?w = _ => now destruct Q
           | |- committed _ = committed _ => assumption
           end.
  all: do 4 eexists; (split; [eassumption|]); (split; [eassumption|]);
    (split; [eassumption|]); (split; [assumption|]).
  all: match goal with
       | E : DB_QueryRow (select_balance _) ?wc = (Err _, ?w9),
         C2 : committed ?w10 = committed ?w9 |- _ =>
           rewrite C2, (select_balance_failed _ _ _ _ E); split; assumption
       end.
Qed.

(** Every response of [ActivatePromocode] that carries an error comes from
    a run that left the committed tables as they were, except one: the 500
    that reports the failure of reading the new balance back. That run has
    committed: the redemption is recorded and the user is credited, although
    the response is an error. *)
Theorem ActivatePromocode_hidden_commit (c : Ctx activatePromocodeRequest) (w : World) :
  let r := (ActivatePromocode c w).1 in
  let w' := (ActivatePromocode c w).2 in
  (forall message : string,
     body r !! "error" = Some (JStr message) -> message <> read_back_failed ->
     committed w' = committed w) /\
  (body r !! "error" = Some (JStr read_back_failed) -> committed_unseen c w w').
Proof.
  intros r w'.
  assert (ActivatePromocode c w = (r, w')) as E
    by (subst r w'; now destruct (ActivatePromocode c w)).
  destruct (ActivatePromocode_change _ _ _ _ E) as [(_ & N) | (m & B & D)].
  - split; [intros message B | intros B]; rewrite N in B; discriminate B.
  - split.
    + intros message B' N. rewrite B in B'. injection B' as <-.
      destruct D as [(_ & C) | (M & _)]; [exact C | contradiction].
    + intros B'. rewrite B in B'. injection B' as ->.
      destruct D as [(N & _) | (_ & U)]; [contradiction | exact U].
Qed.

End Hidden.

(** The user 44 redeems WELCOME, and the connection is lost at the eighth
    round trip, the read-back: the response is a 500 and the balance in the
    committed table is 107. *)
Lemma ActivatePromocode_hidden_commit_witness :
  let w := set_faults [None; None; None; None; None; None; None;
                       Some (Errorf "connection reset by peer")]
             (Reference.world Reference.current_tables 1500) in
  let run := ActivatePromocode (H := Reference.lib)
               (Reference.request 44 (mkActivatePromocodeRequest "WELCOME")) w in
  status run.1 = StatusInternalServerError /\
  balance (committed run.2) !! 44 = Some 107%float.
Proof.
  intros w run.
  assert (body run.1 !! "error" = Some (JStr read_back_failed)) as B
    by (vm_compute; reflexivity).
  destruct (proj2 (@ActivatePromocode_hidden_commit Reference.lib
                     (Reference.request 44 (mkActivatePromocodeRequest "WELCOME")) w) B)
    as (claims & req & record & w1 & Hc & Hb & Hf & _ & _ & Bal).
  injection Hc as <-. injection Hb as <-.
  vm_compute in Hf. injection Hf as <- <-.
  split; [vm_compute; reflexivity|].
  fold run in Bal. rewrite Bal. vm_compute. reflexivity.
Defined.

(** ** Error responses *)

Section ErrorResponses.
Context `{GoLib}.

(** The messages of the error responses. *)
Definition vocabulary : list string :=
  [ "Unauthorized"; "Missing authorization token"; "Invalid token signature";
    "Token expired"; "Failed to verify admin status"; "Admin privileges required";
    "Invalid request payload"; "Name is required"; "Invalid quantity";
    "Quantity must be greater than zero"; "Quantity must be a finite number";
    "Quantity must be an integer value"; "Failed to generate promocode keyword";
    "Invalid start or end time"; "Promocode keyword already exists";
    "Failed to create promocode"; "Promocode keyword is required"; "Promocode not found";
    "Failed to fetch promocode"; "Promocode is not active"; "Failed to start transaction";
    "Promocode already activated by this user"; "Failed to check promocode activation";
    "Failed to check legacy promocode activation"; "Failed to prepare balance record";
    "Failed to update balance"; "Failed to record promocode activation";
    "Failed to complete activation"; "Failed to fetch updated balance";
    "Failed to initialize balance"; "Failed to fetch balance";
    "Failed to fetch promocode activations" ].

(** The rejections of an input (HTTP 400) that say what was wrong with it. *)
Definition detailed_rejections : list string :=
  [ "Invalid request payload"; "Invalid quantity"; "Invalid start or end time" ].

(** An error response: an [error] from the vocabulary, and [details]
    exactly on internal failures, on authentication failures and on the
    detailed rejections. *)
Definition error_response (r : Response) : Prop :=
  exists message : string,
    body r !! "error" = Some (JStr message) /\ In message vocabulary /\
    (is_Some (body r !! "details") <->
     status r = StatusInternalServerError \/ status r = StatusUnauthorized \/
     In message detailed_rejections).

Lemma In_existsb (message : string) (l : list string) :
  existsb (String.eqb message) l = true -> In message l.
Proof. intros E. apply existsb_exists in E as (x & I & ->%String.eqb_eq). exact I. Qed.

Lemma not_In_existsb (message : string) (l : list string) :
  existsb (String.eqb message) l = false -> ~ In message l.
Proof.
  intros E I. assert (existsb (String.eqb message) l = true) as E'; [|congruence].
  apply existsb_exists. exists message. split; [exact I | apply String.eqb_refl].
Qed.

Lemma error_response_plain (st : Z) (message : string) :
  existsb (String.eqb message) vocabulary = true ->
  existsb (String.eqb message) detailed_rejections = false ->
  st <> StatusInternalServerError -> st <> StatusUnauthorized ->
  error_response (StatusJSON st (errorBody message)).
Proof.
  intros V D N1 N2. exists message. response_fields.
  split; [reflexivity|]. split; [now apply In_existsb|]. split.
  - intros [x [=]].
  - intros [? | [? | I]]; try contradiction. now apply not_In_existsb in D.
Qed.

Lemma error_response_details (st : Z) (message : string) (err : error) :
  existsb (String.eqb message) vocabulary = true ->
  (st =? StatusInternalServerError) || (st =? StatusUnauthorized)
  || existsb (String.eqb message) detailed_rejections = true ->
  error_response (StatusJSON st (errorDetails message err)).
Proof.
  intros V D. exists message. response_fields.
  split; [reflexivity|]. split; [now apply In_existsb|]. split; [|eauto].
  intros _. apply orb_true_iff in D as [D | D]; [apply orb_true_iff in D as [D | D]|].
  - left. now apply Z.eqb_eq.
  - right. left. now apply Z.eqb_eq.
  - right. right. now apply In_existsb.
Qed.

Lemma error_response_unauthorized (err : error) : error_response (unauthorizedResponse err).
Proof.
  unfold unauthorizedResponse. repeat case_match; now apply error_response_details.
Qed.

(** Settles what a leaf of a handler answers. *)
Ltac settle :=
  intros [= <- <-];
  lazymatch goal with
  | |- _ \/ error_response (unauthorizedResponse _) =>
      right; apply error_response_unauthorized
  | |- _ \/ error_response (StatusJSON _ (errorBody _)) =>
      right; apply error_response_plain; [reflexivity | reflexivity | discriminate | discriminate]
  | |- _ \/ error_response (StatusJSON _ (errorDetails _ _)) =>
      right; apply error_response_details; reflexivity
  | |- status (JSON _) = _ \/ _ => left; reflexivity
  end.

Lemma GetBalance_responses (c : Ctx unit) (w w' : World) (r : Response) :
  GetBalance c w = (r, w') -> status r = StatusOK \/ error_response r.
Proof. unfold GetBalance, getClaimsFromContext. exec. all: settle. Qed.

Lemma VerifyAdmin_responses (c : Ctx unit) (w w' : World) (r : Response) :
  VerifyAdmin c w = (r, w') -> status r = StatusOK \/ error_response r.
Proof. unfold VerifyAdmin, getClaimsFromContext. exec. all: settle. Qed.

Lemma ActivatePromocode_responses (c : Ctx activatePromocodeRequest) (w w' : World)
    (r : Response) :
  ActivatePromocode c w = (r, w') -> status r = StatusOK \/ error_response r.
Proof. unfold ActivatePromocode, getClaimsFromContext. exec. all: settle. Qed.

Lemma AddPromocode_responses (c : Ctx addPromocodeRequest) (w w' : World) (r : Response) :
  AddPromocode c w = (r, w') -> status r = StatusOK \/ error_response r.
Proof. unfold AddPromocode, getClaimsFromContext. exec. all: settle. Qed.

Lemma GetPastPromocodes_responses (c : Ctx unit) (w w' : World) (r : Response) :
  GetPastPromocodes c w = (NoActivations r, w') -> error_response r.
Proof.
  unfold GetPastPromocodes, getClaimsFromContext. exec.
  all: intros [= <- <-].
  all: lazymatch goal with
       | |- error_response (unauthorizedResponse _) => apply error_response_unauthorized
       | |- _ => idtac
       end.
  exists "Failed to fetch promocode activations". cbn [status body StatusJSON].
  split; [reflexivity|]. split; [apply In_existsb; reflexivity|].
  split; [now left | intros _; eexists; reflexivity].
Qed.

(** Every response of the five handlers that is not a 200 carries an
    [error] message of a fixed vocabulary, and carries [details] exactly
    when it reports an internal failure (500), an authentication failure
    (401), or one of the three rejections of a malformed input. *)
Theorem error_responses (w : World) :
  (forall c : Ctx addPromocodeRequest,
     let r := (AddPromocode c w).1 in status r = StatusOK \/ error_response r) /\
  (forall c : Ctx activatePromocodeRequest,
     let r := (ActivatePromocode c w).1 in status r = StatusOK \/ error_response r) /\
  (forall c : Ctx unit,
     let r := (GetBalance c w).1 in status r = StatusOK \/ error_response r) /\
  (forall c : Ctx unit,
     let r := (VerifyAdmin c w).1 in status r = StatusOK \/ error_response r) /\
  (forall (c : Ctx unit) (r : Response),
     (GetPastPromocodes c w).1 = NoActivations r -> error_response r).
Proof.
  repeat split; intros c.
  - destruct (AddPromocode c w) as [r w'] eqn:E. eapply AddPromocode_responses, E.
  - destruct (ActivatePromocode c w) as [r w'] eqn:E. eapply ActivatePromocode_responses, E.
  - destruct (GetBalance c w) as [r w'] eqn:E. eapply GetBalance_responses, E.
  - destruct (VerifyAdmin c w) as [r w'] eqn:E. eapply VerifyAdmin_responses, E.
  - intros r. destruct (GetPastPromocodes c w) as [p w'] eqn:E. simpl. intros ->.
    eapply GetPastPromocodes_responses, E.
Qed.

(** The authentication failure is the one error response below 500 that
    always carries [details]. *)
Example unauthorized_carries_details :
  let r := (ActivatePromocode (H := Reference.lib)
              (mkCtx (Err ErrMissingToken) (Ok (mkActivatePromocodeRequest "WELCOME")))
              (Reference.world Reference.current_tables 1500)).1 in
  status r = StatusUnauthorized /\
  body r !! "error" = Some (JStr "Missing authorization token") /\
  body r !! "details" = Some (JStr "authorization token is required").
Proof. vm_compute. repeat split. Qed.

End ErrorResponses.
